(** * Post-processing front end: session callbacks over the plotting config

    A shallow embedding of the callbacks of
    [post-processing/streamlit_post_processing.py]: [update_config],
    [update_axes], [update_types], [update_filter], [add_filter],
    [add_extra_column] and [rerun_post_processing].

    The callbacks read and write Streamlit's session state, call methods of
    [PostProcessing] and [ConfigHandler], and report through [st.exception]
    and [st.warning].  They are written here in a state-and-exception monad
    over the session state, line by line after the Python. *)

From Stdlib Require Import ZArith Ascii String.
From stdpp Require Import base option list gmap strings.

Set Default Proof Using "Type".

(** ** Python values, exceptions and the monad of a callback *)

(** Values of the configuration document (what YAML can hold). *)
#[warnings="-register-all"]
Inductive pyobj :=
  | PNone
  | PStr (s : string)
  | PInt (n : Z)
  | PDict (d : gmap string pyobj).

(** An exception is identified by its class name. *)
Definition exn := string.

(** What the page shows: [st.exception(e)] and [st.warning(msg)]. *)
Inductive report :=
  | StException (e : exn)
  | StWarning (msg : string).

#[global] Instance report_eq_dec : EqDecision report.
Proof. unfold exn. solve_decision. Defined.

(** Outcome of running a piece of Python on a state of type [St]: normal
    completion with a value, or an exception in flight; the state reached is
    kept either way, since an [except] clause sees every mutation made
    before the [raise]. *)
Inductive Res (St A : Type) : Type :=
  | Ok (a : A) (s : St)
  | Raise (e : exn) (s : St).
Arguments Ok {St A} a s.
Arguments Raise {St A} e s.

Definition M (St A : Type) : Type := St → Res St A.

Definition ret {St A} (a : A) : M St A := λ s, Ok a s.

Definition bind {St A B} (m : M St A) (k : A → M St B) : M St B :=
  λ s, match m s with
       | Ok a s' => k a s'
       | Raise e s' => Raise e s'
       end.

Definition raise {St A} (e : exn) : M St A := λ s, Raise e s.

(** [try: body except Exception as e: handler e] *)
Definition try_except {St A} (body : M St A) (handler : exn → M St A) : M St A :=
  λ s, match body s with
       | Ok a s' => Ok a s'
       | Raise e s' => handler e s'
       end.

Definition gets {St A} (f : St → A) : M St A := λ s, Ok (f s) s.
Definition modify {St} (f : St → St) : M St unit := λ s, Ok tt (f s).

(** A pure call that may raise. *)
Definition lift {St A} (r : exn + A) : M St A :=
  match r with
  | inl e => raise e
  | inr a => ret a
  end.

Notation "'do' x <- m 'in' k" := (bind m (λ x, k))
  (at level 10, x name, m at level 99, k at level 200).
Notation "m1 ;;; m2" := (bind m1 (λ _, m2))
  (at level 100, right associativity).

(** The state an outcome ends in. *)
Definition final {St A} (r : Res St A) : St :=
  match r with
  | Ok _ s => s
  | Raise _ s => s
  end.

Definition returned {St A} (r : Res St A) : Prop :=
  match r with
  | Ok _ _ => True
  | Raise _ _ => False
  end.

(** ** Python list operations *)

(** [l.index(x)]: position of the first element equal to [x]. *)
Fixpoint py_index {A} `{EqDecision A} (x : A) (l : list A) : option nat :=
  match l with
  | [] => None
  | y :: l' => if decide (y = x) then Some 0 else S <$> py_index x l'
  end.

(** [l.remove(x)]: drops the first element equal to [x]; [None] stands for
    the [ValueError] raised when there is none. *)
Fixpoint py_remove {A} `{EqDecision A} (x : A) (l : list A) : option (list A) :=
  match l with
  | [] => None
  | y :: l' => if decide (y = x) then Some l' else (y ::.) <$> py_remove x l'
  end.

(** [c[-1] = v] on a non-empty list. *)
Definition set_last {A} (c : list A) (v : A) : list A :=
  <[pred (length c) := v]> c.

(** Truthiness of an optional string: [None] and [""] are falsy. *)
Definition truthy (o : option string) : bool :=
  match o with
  | Some s => negb (String.eqb s "")
  | None => false
  end.

(** ** Module constants *)

Definition operators : list string := ["=="; "!="; "<"; ">"; "<="; ">="].
Definition column_type_names : list string := ["datetime"; "int"; "float"; "str"].

(** [filter_types = ["and", "or", "series"]], the values of the
    [filter_type] select box and the session keys of the three lists. *)
Inductive kind := And | Or | Series.

#[global] Instance kind_eq_dec : EqDecision kind.
Proof. solve_decision. Defined.

Definition filter_types : list kind := [And; Or; Series].

(** pandas to user type mapping *)
Definition type_lookup : gmap string string :=
  {[ "datetime64[ns]" := "datetime"; "float64" := "float";
     "Int64" := "int"; "object" := "str" ]}.

(** user to pandas type mapping *)
Definition dtype_lookup : gmap string string :=
  {[ "datetime" := "datetime64[ns]"; "float" := "float64";
     "int" := "Int64"; "str" := "object" ]}.

(** ** The configuration *)

(** A filter clause is a Python list of strings: [[column, operator, value]]
    in the AND and OR lists, [[column, value]] in the series list. *)
Abbreviation clause := (list string).

(** A reference to a list of clauses.  [update_filter] stores the very list
    object held by the session state under the key into the configuration, so
    from then on both names denote one object: [SessionList k] is that
    object, [OwnList l] a list the configuration was built with. *)
Inductive listref :=
  | OwnList (l : list clause)
  | SessionList (k : kind).

(** A column name as the select boxes give it: [None] when nothing is
    selected. *)
Abbreviation colname := (option string).

Record ConfigHandler := {
  title : option string;
  x_axis : gmap string pyobj;
  y_axis : gmap string pyobj;
  column_types : gmap colname string;
  filters_and : listref;
  filters_or : listref;
  series : listref;
  series_filters : list clause;
  extra_columns : list colname;
  plot_columns : list colname;
  all_columns : list colname;
  scaling_column : option string;
  scaling_series : option Z;
  scaling_x_value : option string;
  scaling_custom : option string
}.

(** The plain key-value document a configuration is loaded from and saved
    to: the lists are held by value. *)
Record ConfigDoc := {
  d_title : option string;
  d_x_axis : gmap string pyobj;
  d_y_axis : gmap string pyobj;
  d_column_types : gmap colname string;
  d_and : list clause;
  d_or : list clause;
  d_series : list clause;
  d_extra_columns : list colname
}.

(** Reading a configuration document. *)
Definition get_str (o : option pyobj) : option string :=
  match o with
  | Some (PStr s) => Some s
  | _ => None
  end.

Definition get_dict (o : option pyobj) : gmap string pyobj :=
  match o with
  | Some (PDict d) => d
  | _ => ∅
  end.

Definition pstr_opt (o : option string) : pyobj :=
  match o with
  | Some s => PStr s
  | None => PNone
  end.

(** [config.filters[key]] for the AND and OR lists, [config.series] for the
    series. *)
Definition filters_ref (k : kind) (c : ConfigHandler) : listref :=
  match k with
  | And => filters_and c
  | Or => filters_or c
  | Series => series c
  end.

(** ** Collaborators

    [PostProcessing] (post_processing.py), the loader and validator of
    config_handler.py and pandas are not part of the front end; the callbacks
    are stated over any implementation of the calls they make. *)
Class Backend := {
  DataFrame : Type;
  (** a scalar of a column, or a string typed by the author *)
  Native : Type;
  Scale : Type;
  Plot : Type;
  Upload : Type;
  (** [str(v)] *)
  native_str : Native → string;
  (** [str(df[col].dtype)], when the column exists *)
  native_dtype : DataFrame → string → option string;
  (** [post.apply_df_types(all_columns, column_types)], on [post.df] *)
  apply_df_types : list colname → gmap colname string → M DataFrame unit;
  (** [post.val_as_dtype(val, dtype).iloc[0]] *)
  val_as_dtype : Native → option string → exn + Native;
  (** [post.val_as_col_dtype(val, col).iloc[0]] *)
  val_as_col_dtype : DataFrame → string → string → exn + Native;
  (** the rows of the table, each a mapping from column name to value *)
  df_rows : DataFrame → list (gmap string Native);
  (** one comparison [x op v] of a row's value with a clause's value *)
  compare_values : string → Native → Native → exn + bool;
  (** the scaling resolver *)
  resolve_scaling : DataFrame → list bool → option pyobj → list clause → exn + Scale;
  (** the plot renderer *)
  render : option string → DataFrame → list bool → Scale → Plot;
  (** [load_config(uploaded_config)] *)
  load_config : Upload → exn + ConfigDoc;
  (** [read_config(config_dict)]: validation *)
  read_config : ConfigDoc → exn + unit;
  (** [ConfigHandler(config_dict, template=...)] *)
  new_config : ConfigDoc → bool → exn + ConfigHandler;
  (** [ConfigHandler.from_template()] *)
  from_template : ConfigHandler
}.

Section Callbacks.
Context `{B : Backend}.

(** ** The session state *)

Record PostProcessing := {
  df : DataFrame;
  original_df : DataFrame;
  mask : list bool;
  scale : option Scale;
  plot : option Plot
}.

(** The widget values a callback reads: [state.x_axis_column] and so on. *)
Record Inputs := {
  x_axis_column : colname;
  x_axis_type : string;
  x_axis_units_column : colname;
  x_axis_units_custom : option string;
  y_axis_column : colname;
  y_axis_type : string;
  y_axis_units_column : colname;
  y_axis_units_custom : option string;
  y_axis_scaling_column : colname;
  y_axis_scaling_type : string;
  y_axis_scaling_series : option clause;
  y_axis_scaling_x_value : option Native;
  y_axis_custom_scaling_val : option string;
  filter_type : kind;
  filter_column_type : string;
  extra_col : colname;
  uploaded_config : option Upload
}.

(** [st.session_state]: [state.post], [state.config], the widget values, the
    lists under the keys ["and"], ["or"] and ["series"], and what has been
    reported on the page. *)
Record SessionState := {
  post : PostProcessing;
  config : ConfigHandler;
  inputs : Inputs;
  st_and : list clause;
  st_or : list clause;
  st_series : list clause;
  ui : list report
}.

Definition with_post (f : PostProcessing → PostProcessing) (s : SessionState) : SessionState :=
  {| post := f (post s); config := config s; inputs := inputs s;
     st_and := st_and s; st_or := st_or s; st_series := st_series s; ui := ui s |}.

Definition with_config (f : ConfigHandler → ConfigHandler) (s : SessionState) : SessionState :=
  {| post := post s; config := f (config s); inputs := inputs s;
     st_and := st_and s; st_or := st_or s; st_series := st_series s; ui := ui s |}.

Definition with_ui (f : list report → list report) (s : SessionState) : SessionState :=
  {| post := post s; config := config s; inputs := inputs s;
     st_and := st_and s; st_or := st_or s; st_series := st_series s; ui := f (ui s) |}.

(** [state[key]] *)
Definition session_list (k : kind) (s : SessionState) : list clause :=
  match k with
  | And => st_and s
  | Or => st_or s
  | Series => st_series s
  end.

Definition set_session_list (k : kind) (l : list clause) (s : SessionState) : SessionState :=
  {| post := post s; config := config s; inputs := inputs s;
     st_and := match k with And => l | _ => st_and s end;
     st_or := match k with Or => l | _ => st_or s end;
     st_series := match k with Series => l | _ => st_series s end;
     ui := ui s |}.

(** The list a reference denotes in a session state. *)
Definition deref (s : SessionState) (r : listref) : list clause :=
  match r with
  | OwnList l => l
  | SessionList k => session_list k s
  end.

(** The configuration's list of a kind, as its readers see it. *)
Definition config_filters (k : kind) (s : SessionState) : list clause :=
  deref s (filters_ref k (config s)).

Definition set_df (d : DataFrame) (p : PostProcessing) : PostProcessing :=
  {| df := d; original_df := original_df p; mask := mask p;
     scale := scale p; plot := plot p |}.

Definition set_plot (o : option Plot) (p : PostProcessing) : PostProcessing :=
  {| df := df p; original_df := original_df p; mask := mask p;
     scale := scale p; plot := o |}.

Definition set_x_axis (a : gmap string pyobj) (c : ConfigHandler) : ConfigHandler :=
  {| title := title c; x_axis := a; y_axis := y_axis c;
     column_types := column_types c; filters_and := filters_and c;
     filters_or := filters_or c; series := series c;
     series_filters := series_filters c; extra_columns := extra_columns c;
     plot_columns := plot_columns c; all_columns := all_columns c;
     scaling_column := scaling_column c; scaling_series := scaling_series c;
     scaling_x_value := scaling_x_value c; scaling_custom := scaling_custom c |}.

Definition set_y_axis (a : gmap string pyobj) (c : ConfigHandler) : ConfigHandler :=
  {| title := title c; x_axis := x_axis c; y_axis := a;
     column_types := column_types c; filters_and := filters_and c;
     filters_or := filters_or c; series := series c;
     series_filters := series_filters c; extra_columns := extra_columns c;
     plot_columns := plot_columns c; all_columns := all_columns c;
     scaling_column := scaling_column c; scaling_series := scaling_series c;
     scaling_x_value := scaling_x_value c; scaling_custom := scaling_custom c |}.

Definition set_column_types (t : gmap colname string) (c : ConfigHandler) : ConfigHandler :=
  {| title := title c; x_axis := x_axis c; y_axis := y_axis c;
     column_types := t; filters_and := filters_and c;
     filters_or := filters_or c; series := series c;
     series_filters := series_filters c; extra_columns := extra_columns c;
     plot_columns := plot_columns c; all_columns := all_columns c;
     scaling_column := scaling_column c; scaling_series := scaling_series c;
     scaling_x_value := scaling_x_value c; scaling_custom := scaling_custom c |}.

Definition set_filters_ref (k : kind) (r : listref) (c : ConfigHandler) : ConfigHandler :=
  {| title := title c; x_axis := x_axis c; y_axis := y_axis c;
     column_types := column_types c;
     filters_and := match k with And => r | _ => filters_and c end;
     filters_or := match k with Or => r | _ => filters_or c end;
     series := match k with Series => r | _ => series c end;
     series_filters := series_filters c; extra_columns := extra_columns c;
     plot_columns := plot_columns c; all_columns := all_columns c;
     scaling_column := scaling_column c; scaling_series := scaling_series c;
     scaling_x_value := scaling_x_value c; scaling_custom := scaling_custom c |}.

Definition set_series_filters (l : list clause) (c : ConfigHandler) : ConfigHandler :=
  {| title := title c; x_axis := x_axis c; y_axis := y_axis c;
     column_types := column_types c; filters_and := filters_and c;
     filters_or := filters_or c; series := series c;
     series_filters := l; extra_columns := extra_columns c;
     plot_columns := plot_columns c; all_columns := all_columns c;
     scaling_column := scaling_column c; scaling_series := scaling_series c;
     scaling_x_value := scaling_x_value c; scaling_custom := scaling_custom c |}.

Definition set_extra_columns (l : list colname) (c : ConfigHandler) : ConfigHandler :=
  {| title := title c; x_axis := x_axis c; y_axis := y_axis c;
     column_types := column_types c; filters_and := filters_and c;
     filters_or := filters_or c; series := series c;
     series_filters := series_filters c; extra_columns := l;
     plot_columns := plot_columns c; all_columns := all_columns c;
     scaling_column := scaling_column c; scaling_series := scaling_series c;
     scaling_x_value := scaling_x_value c; scaling_custom := scaling_custom c |}.

Definition set_columns (p a : list colname) (c : ConfigHandler) : ConfigHandler :=
  {| title := title c; x_axis := x_axis c; y_axis := y_axis c;
     column_types := column_types c; filters_and := filters_and c;
     filters_or := filters_or c; series := series c;
     series_filters := series_filters c; extra_columns := extra_columns c;
     plot_columns := p; all_columns := a;
     scaling_column := scaling_column c; scaling_series := scaling_series c;
     scaling_x_value := scaling_x_value c; scaling_custom := scaling_custom c |}.

Definition set_scaling (col : option string) (ser : option Z)
    (xv cus : option string) (c : ConfigHandler) : ConfigHandler :=
  {| title := title c; x_axis := x_axis c; y_axis := y_axis c;
     column_types := column_types c; filters_and := filters_and c;
     filters_or := filters_or c; series := series c;
     series_filters := series_filters c; extra_columns := extra_columns c;
     plot_columns := plot_columns c; all_columns := all_columns c;
     scaling_column := col; scaling_series := ser;
     scaling_x_value := xv; scaling_custom := cus |}.

(** [st.exception(e)], [st.warning(msg)] and [post.plot = None] *)
Definition st_exception (e : exn) : M SessionState unit :=
  modify (with_ui (λ l, l ++ [StException e])).

Definition st_warning (msg : string) : M SessionState unit :=
  modify (with_ui (λ l, l ++ [StWarning msg])).

Definition clear_plot : M SessionState unit :=
  modify (with_post (set_plot None)).

(** A method of [post] that works on [post.df]. *)
Definition on_df {A} (m : M DataFrame A) : M SessionState A :=
  λ s, match m (df (post s)) with
       | Ok a d => Ok a (with_post (set_df d) s)
       | Raise e d => Raise e (with_post (set_df d) s)
       end.

(** ** Normalisation passes of [ConfigHandler] *)

Definition axis_value (a : gmap string pyobj) : option string :=
  get_str (a !! "value").

Definition units_column (a : gmap string pyobj) : option string :=
  get_str (get_dict (a !! "units") !! "column").

Definition scaling_column_spec (a : gmap string pyobj) : gmap string pyobj :=
  get_dict (get_dict (a !! "scaling") !! "column").

Definition filter_columns (l : list clause) : list string :=
  omap head l.

(** Modelled from the spec: [parse_filters] of config_handler.py is missing;
    it "re-derives derived filter display state after an external edit to the
    raw filter lists, preserving clause order".  The derived state kept here
    is [series_filters], the series with the implicit [==] written out; the
    raw lists are left as they are. *)
Definition series_clause (c : clause) : clause :=
  match c with
  | col :: v :: _ => [col; "=="; v]
  | _ => c
  end.

Definition parse_filters : M SessionState unit :=
  modify (λ s, with_config (set_series_filters (series_clause <$> config_filters Series s)) s).

(** Modelled from the spec: [parse_columns] of config_handler.py is missing;
    it "recomputes the set of columns that must have a declared type, by
    unioning axis values, units columns, scaling columns, filter columns, and
    extra columns; adds missing entries to column_types inferring from the
    dataset's native dtype where absent". *)
Definition plot_columns_of (s : SessionState) : list colname :=
  let c := config s in
  Some <$> (omap id [axis_value (x_axis c); axis_value (y_axis c);
                     units_column (x_axis c); units_column (y_axis c);
                     get_str (scaling_column_spec (y_axis c) !! "name")]
            ++ filter_columns (config_filters Series s)).

Definition all_columns_of (s : SessionState) : list colname :=
  remove_dups (plot_columns_of s
               ++ (Some <$> (filter_columns (config_filters And s)
                             ++ filter_columns (config_filters Or s)))
               ++ extra_columns (config s)).

Definition infer_type (d : DataFrame) (col : colname) : option string :=
  name ← col; dt ← native_dtype d name; type_lookup !! dt.

Definition add_missing_types (d : DataFrame) (cols : list colname)
    (t : gmap colname string) : gmap colname string :=
  foldr (λ col acc,
           match acc !! col, infer_type d col with
           | None, Some ty => <[col := ty]> acc
           | _, _ => acc
           end) t cols.

Definition parse_columns : M SessionState unit :=
  modify (λ s,
    let p := plot_columns_of s in
    let a := all_columns_of s in
    with_config (λ c, set_column_types (add_missing_types (df (post s)) a (column_types c))
                        (set_columns p a c)) s).

(** Modelled from the spec: [remove_redundant_types] of config_handler.py is
    missing; it "deletes any column_types entry whose key is no longer in the
    unioned set from parseColumns". *)
Definition remove_redundant_types : M SessionState unit :=
  modify (with_config (λ c,
    set_column_types (filter (λ kv, kv.1 ∈ all_columns c) (column_types c)) c)).

(** Modelled from the spec: [parse_scaling] of config_handler.py is missing.
    The spec has it keep "separately-set sub-fields (column, series, x-value,
    custom)" next to the [ScalingSpec]; [update_axes] writes the spec itself
    into [y_axis["scaling"]] and then calls the pass, so the pass is the one
    that brings the sub-fields in line with the axis document. *)
Definition parse_scaling : M SessionState unit :=
  modify (with_config (λ c,
    let sc := get_dict (y_axis c !! "scaling") in
    let col := get_dict (sc !! "column") in
    set_scaling (get_str (col !! "name"))
                (match col !! "series" with Some (PInt i) => Some i | _ => None end)
                (get_str (col !! "x_value"))
                (get_str (sc !! "custom")) c)).

(** ** Callbacks *)

(** Apply user-selected types to session state config and dataframe. *)
Definition update_types : M SessionState unit :=
  (* re-parse column names *)
  parse_columns ;;;
  (* remove redundant types from config *)
  remove_redundant_types ;;;
  try_except
    (* update dataframe types *)
    (do c <- gets config in
     on_df (apply_df_types (all_columns c) (column_types c)))
    (λ e, st_exception e ;;; clear_plot).

Definition units_custom (v : option string) : pyobj :=
  PDict {[ "custom" := pstr_opt v ]}.

Definition units_from_column (col : colname) : pyobj :=
  PDict {[ "column" := pstr_opt col ]}.

Definition set_type (col : colname) (ty : string) : M SessionState unit :=
  modify (with_config (λ c, set_column_types (<[col := ty]> (column_types c)) c)).

Definition set_x_item (key : string) (v : pyobj) : M SessionState unit :=
  modify (with_config (λ c, set_x_axis (<[key := v]> (x_axis c)) c)).

Definition set_y_item (key : string) (v : pyobj) : M SessionState unit :=
  modify (with_config (λ c, set_y_axis (<[key := v]> (y_axis c)) c)).

(** [str(y_scaling_x)] *)
Definition str_of_selection (v : option Native) : string :=
  match v with
  | Some x => native_str x
  | None => "None"
  end.

(** [state.config.series_filters.index(y_scaling_series) if y_scaling_series
    else None] *)
Definition series_index (sel : option clause) : M SessionState pyobj :=
  match sel with
  | Some (x :: l) =>
      do c <- gets config in
      match py_index (x :: l) (series_filters c) with
      | Some i => ret (PInt (Z.of_nat i))
      | None => raise "ValueError"
      end
  | _ => ret PNone
  end.

(** Lines 313-322, "update units".
    NOTE: units are automatically interpreted as strings for simplicity *)
Definition update_units (i : Inputs) : M SessionState unit :=
  let x_units_column := x_axis_units_column i in
  let x_units_custom := x_axis_units_custom i in
  let y_units_column := y_axis_units_column i in
  let y_units_custom := y_axis_units_custom i in
  set_x_item "units" (units_custom x_units_custom) ;;;
  (if negb (truthy x_units_custom) && truthy x_units_column
   then set_x_item "units" (units_from_column x_units_column) ;;;
        set_type x_units_column "str"
   else ret tt) ;;;
  set_y_item "units" (units_custom y_units_custom) ;;;
  (if negb (truthy y_units_custom) && truthy y_units_column
   then set_y_item "units" (units_from_column y_units_column) ;;;
        set_type y_units_column "str"
   else ret tt).

(** Lines 324-332, "update scaling". *)
Definition update_scaling (i : Inputs) : M SessionState unit :=
  let y_scaling_column := y_axis_scaling_column i in
  let y_scaling_series := y_axis_scaling_series i in
  let y_scaling_x := y_axis_scaling_x_value i in
  let y_scaling_custom := y_axis_custom_scaling_val i in
  set_y_item "scaling"
    (PDict {[ "custom" := if truthy y_scaling_custom
                          then pstr_opt y_scaling_custom else PNone ]}) ;;;
  (if negb (truthy y_scaling_custom) && truthy y_scaling_column
   then
     (* NOTE: series index needs to be kept as int for now *)
     do idx <- series_index y_scaling_series in
     set_y_item "scaling"
       (PDict {[ "column" :=
                   PDict {[ "name" := pstr_opt y_scaling_column;
                            "series" := idx;
                            "x_value" := PStr (str_of_selection y_scaling_x) ]} ]}) ;;;
     set_type y_scaling_column (y_axis_scaling_type i)
   else ret tt).

(** Apply user-selected axis columns and types to session state config. *)
Definition update_axes : M SessionState unit :=
  do i <- gets inputs in
  let x_column := x_axis_column i in
  let y_column := y_axis_column i in
  (* update columns *)
  set_x_item "value" (pstr_opt x_column) ;;;
  set_y_item "value" (pstr_opt y_column) ;;;
  (* update column types *)
  set_type x_column (x_axis_type i) ;;;
  set_type y_column (y_axis_type i) ;;;
  (* update units *)
  update_units i ;;;
  (* update scaling *)
  update_scaling i ;;;
  parse_scaling ;;;
  (* update types after changing axes *)
  update_types.

(** Apply user-selected filters or series to session state config: the
    configuration is given the session's list object itself. *)
Definition update_filter (key : kind) : M SessionState unit :=
  modify (with_config (set_filters_ref key (SessionList key))) ;;;
  (* re-parse filters *)
  parse_filters ;;;
  (* update types after changing filters or series *)
  update_types.

(** [c[0]] and [c[-1]] *)
Definition item0 {St} (c : clause) : M St string :=
  match head c with
  | Some x => ret x
  | None => raise "IndexError"
  end.

Definition item_last {St} (c : clause) : M St string :=
  match last c with
  | Some x => ret x
  | None => raise "IndexError"
  end.

(** The loop [for f in state[key]] of [add_filter].  The list is read anew at
    every turn, as Python's list iterator does; [n] bounds the number of
    turns by the length of the list, which the body never changes, and [j] is
    the iterator's position. *)
Fixpoint retype_loop (key : kind) (col : string) (n j : nat) : M SessionState unit :=
  match n with
  | 0 => ret tt
  | S n' =>
      do l <- gets (session_list key) in
      match l !! j with
      | None => ret tt
      | Some f =>
          do c0 <- item0 f in
          (* found filter column matches current filter column *)
          (if String.eqb c0 col then
             (* find filter index *)
             match py_index f l with
             | None => raise "ValueError"
             | Some i =>
                 match l !! i with
                 | None => raise "IndexError"
                 | Some fi =>
                     do v <- item_last fi in
                     do d <- gets (λ s, df (post s)) in
                     do filter_value <- lift (val_as_col_dtype d v col) in
                     (* adjust filter value after typing *)
                     modify (set_session_list key
                               (<[i := set_last fi (native_str filter_value)]> l))
                 end
             end
           else ret tt) ;;;
          retype_loop key col n' (S j)
      end
  end.

(** Lines 481-491: the author's value typed as the filter column type and
    turned into a string; the operator dropped from a series. *)
Definition prepare_filter (key : kind) (col op : string) (v : Native)
    : M SessionState clause :=
  do ty <- gets (λ s, filter_column_type (inputs s)) in
  do w <- try_except
            (* type filter value as filter column type *)
            (lift (val_as_dtype v (dtype_lookup !! ty)))
            (λ e, st_exception e ;;; ret v) in
  (* treat filter value as string *)
  let value := native_str w in
  (* remove operator from series *)
  ret (match key with
       | Series => [col; value]
       | _ => [col; op; value]
       end).

(** Lines 495-500: the clause appended to [state[key]], its declared type
    recorded, the configuration and the dataframe brought in line. *)
Definition append_filter (key : kind) (col : string) (filter : clause)
    : M SessionState unit :=
  (* add filter to appropriate filter list *)
  (do l <- gets (session_list key) in
   modify (set_session_list key (l ++ [filter]))) ;;;
  (* update column type *)
  (do ty <- gets (λ s, filter_column_type (inputs s)) in
   set_type (Some col) ty) ;;;
  (* add filter to config and update df types *)
  update_filter key.

(** Lines 502-511: [for f in state[key]: ...] *)
Definition retype_filters (key : kind) (col : string) : M SessionState unit :=
  do l <- gets (session_list key) in
  retype_loop key col (length l) 0.

(** Line 517, [state[key].remove(filter)].  Once appended, the Python
    variable [filter] and the element of [state[key]] at the position [n] it
    was appended at are one object, so the value of the variable is read
    there. *)
Definition remove_filter (key : kind) (n : nat) : M SessionState unit :=
  do cur <- gets (session_list key) in
  match cur !! n with
  | None => raise "ValueError"
  | Some filter =>
      match py_remove filter cur with
      | None => raise "ValueError"
      | Some cur' => modify (set_session_list key cur')
      end
  end.

(** Allow the user to add a new filter or series to session state config.
    The argument is [[column, operator, value]] with the value [None] when
    both value widgets are blank. *)
Definition add_filter (col op : string) (val : option Native) : M SessionState unit :=
  do key <- gets (λ s, filter_type (inputs s)) in
  match val with
  | Some v =>
      do filter <- prepare_filter key col op v in
      do l <- gets (session_list key) in
      if bool_decide (filter ∉ l) then
        try_except
          (append_filter key col filter ;;;
           (* (re-)interpret all filter values as given dtype of filter column *)
           retype_filters key col)
          (λ e,
             st_exception e ;;;
             clear_plot ;;;
             (* remove filter from filter list *)
             remove_filter key (length l) ;;;
             (* re-update filter list *)
             update_filter key)
      else
        (* warn if selected filter is already present *)
        st_warning "Currently selected filter is already present."
  | None =>
      (* warn if both column and custom filter values are blank *)
      st_warning "Currently selected filter cannot be added. Missing filter value information."
  end.

(** Allow the user to add a new extra column to session state config. *)
Definition add_extra_column : M SessionState unit :=
  do c <- gets config in
  do col <- gets (λ s, extra_col (inputs s)) in
  let shown := plot_columns c ++ extra_columns c ++ [col] in
  (* warn if selected extra column is already present *)
  (if bool_decide (length shown ≠ length (remove_dups shown))
   then st_warning "Currently selected extra column is already present in the DataFrame mask."
   else ret tt) ;;;
  if bool_decide (col ∉ extra_columns c) then
    (* add extra column to list *)
    modify (with_config (λ c, set_extra_columns (extra_columns c ++ [col]) c)) ;;;
    (* re-parse column names *)
    parse_columns
  else ret tt.

(** Change session state config to uploaded config file.  [config_dict] is
    bound only if [load_config] returned. *)
Definition update_config : M SessionState unit :=
  do uploaded <- gets (λ s, uploaded_config (inputs s)) in
  match uploaded with
  | Some u =>
      let config_dict := load_config u in
      try_except
        (do d <- lift config_dict in
         do c <- lift (new_config d false) in
         modify (with_config (λ _, c)) ;;;
         (* update dataframe types *)
         on_df (apply_df_types (all_columns c) (column_types c)))
        (λ e,
           st_exception e ;;;
           clear_plot ;;;
           (* autofill some information from invalid config *)
           try_except
             (do d <- match config_dict with
                      | inr d => ret d
                      | inl _ => raise "UnboundLocalError"
                      end in
              do c <- lift (new_config d true) in
              modify (with_config (λ _, c)))
             (λ e', st_exception e'))
  | None => ret tt
  end.

(** ** The filter engine and the pipeline of [PostProcessing] *)

(** Modelled from the spec: the filter engine of post_processing.py is
    missing.  "Cast each clause's stored string value back to its column's
    native type", then evaluate the clause "as a per-row boolean using its
    operator". *)
Definition row_holds (col op : string) (w : Native) (row : gmap string Native)
    : exn + bool :=
  match row !! col with
  | Some x => compare_values op x w
  | None => inl "ColumnNotFoundError"
  end.

Fixpoint rows_hold (col op : string) (w : Native) (rows : list (gmap string Native))
    : exn + list bool :=
  match rows with
  | [] => inr []
  | row :: rows' =>
      match row_holds col op w row, rows_hold col op w rows' with
      | inr b, inr bs => inr (b :: bs)
      | inl e, _ => inl e
      | _, inl e => inl e
      end
  end.

Definition clause_mask (d : DataFrame) (c : clause) : exn + list bool :=
  match c with
  | [col; op; v] =>
      match val_as_col_dtype d v col with
      | inr w => rows_hold col op w (df_rows d)
      | inl e => inl e
      end
  | _ => inl "ConfigValidationError"
  end.

(** One mask per clause, or the first failure. *)
Fixpoint clause_masks (d : DataFrame) (l : list clause) : exn + list (list bool) :=
  match l with
  | [] => inr []
  | c :: l' =>
      match clause_mask d c, clause_masks d l' with
      | inr m, inr ms => inr (m :: ms)
      | inl e, _ => inl e
      | _, inl e => inl e
      end
  end.

Definition all_rows (d : DataFrame) (b : bool) : list bool :=
  replicate (length (df_rows d)) b.

(** "conjoin all AND clauses (empty AND list => all-true)" *)
Definition conjoin (d : DataFrame) (ms : list (list bool)) : list bool :=
  foldr (zip_with andb) (all_rows d true) ms.

(** "disjoin (empty OR list => all-true, i.e. OR with no clauses imposes no
    restriction - not all-false)" *)
Definition disjoin (d : DataFrame) (ms : list (list bool)) : list bool :=
  match ms with
  | [] => all_rows d true
  | _ => foldr (zip_with orb) (all_rows d false) ms
  end.

(** Modelled from the spec: [evaluate(dataset, filterSet, columnTypes)] of
    the missing filter engine, steps 1 to 5 of its algorithm; the series
    clauses are "evaluated as equality tests" and disjoined, and the final
    mask is the conjunction of the three results. *)
Definition evaluate (d : DataFrame) (ands ors sers : list clause) : exn + list bool :=
  match clause_masks d ands, clause_masks d ors,
        clause_masks d (series_clause <$> sers) with
  | inr ma, inr mo, inr ms =>
      inr (zip_with andb (conjoin d ma)
             (zip_with andb (disjoin d mo) (disjoin d ms)))
  | inl e, _, _ => inl e
  | _, inl e, _ => inl e
  | _, _, inl e => inl e
  end.

Definition set_results (m : list bool) (sc : Scale) (p : Plot)
    (post : PostProcessing) : PostProcessing :=
  {| df := df post; original_df := original_df post; mask := m;
     scale := Some sc; plot := Some p |}.

(** Modelled from the spec: [run_post_processing] of post_processing.py is
    missing.  Steps 2 to 5 of the pipeline: coerce the columns, compute the
    mask, resolve the scale, hand the result to the renderer; "any failure at
    steps 2-4 must leave the dataset at its pre-run snapshot".  Validation
    (step 1) and the reset from the original snapshot are the caller's, as in
    [rerun_post_processing]. *)
Definition run_steps : M SessionState unit :=
  do c <- gets config in
  on_df (apply_df_types (all_columns c) (column_types c)) ;;;
  do s <- gets id in
  do m <- lift (evaluate (df (post s)) (config_filters And s)
                  (config_filters Or s) (config_filters Series s)) in
  do sc <- lift (resolve_scaling (df (post s)) m (y_axis c !! "scaling")
                   (series_filters c)) in
  modify (with_post (set_results m sc (render (title c) (df (post s)) m sc))).

Definition run_post_processing : M SessionState unit :=
  λ s, match run_steps s with
       | Ok a s' => Ok a s'
       | Raise e s' => Raise e (with_post (set_df (df (post s))) s')
       end.

(** Modelled from the spec: [to_dict] of config_handler.py is missing; the
    "plain key-value serialization" of the document, its filter lists read
    through the references the configuration holds. *)
Definition to_dict (s : SessionState) : ConfigDoc :=
  let c := config s in
  {| d_title := title c; d_x_axis := x_axis c; d_y_axis := y_axis c;
     d_column_types := column_types c;
     d_and := config_filters And s; d_or := config_filters Or s;
     d_series := config_filters Series s;
     d_extra_columns := extra_columns c |}.

(** Run post-processing with the current session state config. *)
Definition rerun_post_processing : M SessionState unit :=
  try_except
    ((* validate config *)
     (do d <- gets to_dict in lift (read_config d)) ;;;
     (* reset processed df to original state *)
     modify (with_post (λ p, set_df (original_df p) p)) ;;;
     (* run post-processing again *)
     run_post_processing)
    (λ e, st_exception e ;;; clear_plot).

End Callbacks.

(** ** A small implementation of the collaborators

    Tables whose cells are the text of their values, with the casts of the
    four column types on such text.  It is what the callbacks are run on in
    the examples. *)
Module Sample.

Definition is_digit (a : ascii) : bool :=
  let n := nat_of_ascii a in (48 <=? n) && (n <=? 57).

Definition all_digits (s : string) : bool :=
  negb (String.eqb s "") && forallb is_digit (list_ascii_of_string s).

(** [digits "." digits] *)
Fixpoint is_decimal_from (seen_digit : bool) (s : string) : bool :=
  match s with
  | EmptyString => false
  | String a s' =>
      if Ascii.eqb a "."%char then seen_digit && all_digits s'
      else is_digit a && is_decimal_from true s'
  end.

Definition is_decimal (s : string) : bool := is_decimal_from false s.

Definition is_datetime (s : string) : bool :=
  (String.length s =? 10) && all_digits (String.substring 0 4 s)
  && String.eqb (String.substring 4 1 s) "-"
  && all_digits (String.substring 5 2 s)
  && String.eqb (String.substring 7 1 s) "-"
  && all_digits (String.substring 8 2 s).

(** Modelled from the spec: the casts of the missing TypeSystem,
    "cast(value, typeName) -> native value (fails with TypeCoercionError if
    the textual value cannot parse as the requested type - e.g. non-numeric
    text cast to float)", on the text of a value and a native type tag. *)
Definition cast (dtype v : string) : exn + string :=
  if String.eqb dtype "object" then inr v
  else if String.eqb dtype "Int64" then
    if all_digits v then inr v else inl "TypeCoercionError"
  else if String.eqb dtype "float64" then
    if all_digits v then inr (v +:+ ".0")
    else if is_decimal v then inr v else inl "TypeCoercionError"
  else if String.eqb dtype "datetime64[ns]" then
    if is_datetime v then inr v else inl "TypeCoercionError"
  else inl "UnsupportedTypeError".

(** A column: its name, its native type tag and its cells. *)
Definition column : Type := string * (string * list string).
Definition table : Type := list column.

Definition column_dtype (d : table) (col : string) : option string :=
  fst <$> (list_to_map d : gmap string (string * list string)) !! col.

Definition cast_single (v : string) (dtype : option string) : exn + string :=
  match dtype with
  | Some dt => cast dt v
  | None => inr v
  end.

Definition cast_in_column (d : table) (v col : string) : exn + string :=
  match column_dtype d col with
  | Some dt => cast dt v
  | None => inl "KeyError"
  end.

Fixpoint cast_all (dtype : string) (cells : list string) : exn + list string :=
  match cells with
  | [] => inr []
  | v :: cells' =>
      match cast dtype v, cast_all dtype cells' with
      | inr w, inr ws => inr (w :: ws)
      | inl e, _ => inl e
      | _, inl e => inl e
      end
  end.

(** The columns named in [all_columns] are cast one after the other to the
    type declared for them; the first column that cannot be cast raises and
    is left, with the ones after it, as it was. *)
Fixpoint coerce_table (all_columns : list colname) (types : gmap colname string)
    (d : table) : Res table unit :=
  match d with
  | [] => Ok tt []
  | (name, (dt, cells)) :: d' =>
      let target :=
        if bool_decide (Some name ∈ all_columns)
        then ty ← types !! Some name; dtype_lookup !! ty
        else None in
      match target with
      | None =>
          match coerce_table all_columns types d' with
          | Ok _ r => Ok tt ((name, (dt, cells)) :: r)
          | Raise e r => Raise e ((name, (dt, cells)) :: r)
          end
      | Some dt' =>
          match cast_all dt' cells with
          | inl e => Raise e d
          | inr cells' =>
              match coerce_table all_columns types d' with
              | Ok _ r => Ok tt ((name, (dt', cells')) :: r)
              | Raise e r => Raise e ((name, (dt', cells')) :: r)
              end
          end
      end
  end.

Definition row_count (d : table) : nat :=
  match d with
  | [] => 0
  | (_, (_, cells)) :: _ => length cells
  end.

Definition table_rows (d : table) : list (gmap string string) :=
  (λ i, list_to_map (omap (λ c : column, (c.1,.) <$> c.2.2 !! i) d))
    <$> seq 0 (row_count d).

Fixpoint number (acc : N) (s : string) : N :=
  match s with
  | EmptyString => acc
  | String a s' => number (acc * 10 + (N_of_ascii a - 48)) s'
  end.

Definition compare_cells (op x v : string) : exn + bool :=
  if String.eqb op "==" then inr (String.eqb x v)
  else if String.eqb op "!=" then inr (negb (String.eqb x v))
  else if all_digits x && all_digits v then
    let a := number 0 x in
    let b := number 0 v in
    if String.eqb op "<" then inr (a <? b)%N
    else if String.eqb op ">" then inr (b <? a)%N
    else if String.eqb op "<=" then inr (a <=? b)%N
    else if String.eqb op ">=" then inr (b <=? a)%N
    else inl "ValueError"
  else inl "TypeError".

Definition sample_scaling (d : table) (m : list bool) (spec : option pyobj)
    (series_filters : list clause) : exn + string :=
  match get_dict spec !! "custom" with
  | Some (PStr s) => inr s
  | _ => inr "1"
  end.

(** An upload either parses to a document or is not YAML at all. *)
Definition parse_upload (u : option ConfigDoc) : exn + ConfigDoc :=
  match u with
  | Some d => inr d
  | None => inl "YAMLError"
  end.

Definition known_type (ty : string) : bool :=
  bool_decide (ty ∈ column_type_names).

(** Validation: both axes name a column and every declared type is one of the
    four. *)
Definition validate (d : ConfigDoc) : exn + unit :=
  if bool_decide (is_Some (axis_value (d_x_axis d)))
     && bool_decide (is_Some (axis_value (d_y_axis d)))
     && forallb (λ kv, known_type kv.2) (map_to_list (d_column_types d))
  then inr tt else inl "ConfigValidationError".

(** The fields of a document taken as they are. *)
Definition build (d : ConfigDoc) : ConfigHandler :=
  let plot := Some <$> omap id [axis_value (d_x_axis d); axis_value (d_y_axis d)] in
  let sc := get_dict (d_y_axis d !! "scaling") in
  let col := get_dict (sc !! "column") in
  {| title := d_title d; x_axis := d_x_axis d; y_axis := d_y_axis d;
     column_types := d_column_types d;
     filters_and := OwnList (d_and d); filters_or := OwnList (d_or d);
     series := OwnList (d_series d);
     series_filters := series_clause <$> d_series d;
     extra_columns := d_extra_columns d;
     plot_columns := plot;
     all_columns := remove_dups (plot ++ (Some <$> filter_columns (d_and d ++ d_or d ++ d_series d))
                                 ++ d_extra_columns d);
     scaling_column := get_str (col !! "name");
     scaling_series := match col !! "series" with Some (PInt i) => Some i | _ => None end;
     scaling_x_value := get_str (col !! "x_value");
     scaling_custom := get_str (sc !! "custom") |}.

(** [ConfigHandler(config_dict, template=...)]: the document is validated
    unless it is taken as a template. *)
Definition construct (d : ConfigDoc) (template : bool) : exn + ConfigHandler :=
  if template then inr (build d)
  else match validate d with
       | inr _ => inr (build d)
       | inl e => inl e
       end.

(** Modelled from the spec: [from_template] of config_handler.py is missing;
    it "returns a document with every field present but empty/None". *)
Definition template_doc : ConfigDoc :=
  {| d_title := None;
     d_x_axis := {[ "value" := PNone; "units" := PDict {[ "custom" := PNone ]} ]};
     d_y_axis := {[ "value" := PNone; "units" := PDict {[ "custom" := PNone ]};
                    "scaling" := PDict {[ "custom" := PNone ]} ]};
     d_column_types := ∅;
     d_and := []; d_or := []; d_series := [];
     d_extra_columns := [] |}.

Definition empty_template : ConfigHandler := build template_doc.

#[global] Instance backend : Backend := {|
  DataFrame := table;
  Native := string;
  Scale := string;
  Plot := unit;
  Upload := option ConfigDoc;
  native_str := id;
  native_dtype := column_dtype;
  apply_df_types := coerce_table;
  val_as_dtype := cast_single;
  val_as_col_dtype := cast_in_column;
  df_rows := table_rows;
  compare_values := compare_cells;
  resolve_scaling := sample_scaling;
  render := λ _ _ _ _, tt;
  load_config := parse_upload;
  read_config := validate;
  new_config := construct;
  from_template := empty_template
|}.

End Sample.

(** ** What the properties speak of *)

Section Properties.
Context `{B : Backend}.

(** The clause [add_filter] looks for in [state[key]] and appends: the
    author's value as [prepare_filter] leaves it. *)
Definition prepared_value (s : SessionState) (v : Native) : string :=
  native_str (match val_as_dtype v (dtype_lookup !! filter_column_type (inputs s)) with
              | inr w => w
              | inl _ => v
              end).

Definition prepared_clause (s : SessionState) (col op : string) (v : Native) : clause :=
  match filter_type (inputs s) with
  | Series => [col; prepared_value s v]
  | _ => [col; op; prepared_value s v]
  end.

(** A clause with its stored value re-cast through the native values of a
    column of the dataframe, when the cast goes through. *)
Definition recast (d : DataFrame) (col : string) (c : clause) : option clause :=
  v ← last c;
  match val_as_col_dtype d v col with
  | inr w => Some (set_last c (native_str w))
  | inl _ => None
  end.

Definition on_column (col : string) (c : clause) : Prop := head c = Some col.

(** Re-casting the clauses on a column, the others left alone. *)
Definition retyped (d : DataFrame) (col : string) (c : clause) : clause :=
  if decide (head c = Some col) then default c (recast d col c) else c.

(** A clause the loop passes without raising: it names a column, and if that
    is the column being retyped its value can be cast. *)
Definition castable (d : DataFrame) (col : string) (c : clause) : Prop :=
  is_Some (head c) ∧ (on_column col c → is_Some (recast d col c)).

(** Casting the string of a cast value gives that string again. *)
Definition canonical (d : DataFrame) (col : string) (c : clause) : Prop :=
  ∀ c', recast d col c = Some c' → recast d col c' = Some c'.

(** A clause the loop leaves as it is: one on another column, or one whose
    value is already the string of its cast. *)
Definition settled (d : DataFrame) (col : string) (c : clause) : Prop :=
  is_Some (head c) ∧ (on_column col c → recast d col c = Some c).

(** A clause on the column whose value cannot be cast. *)
Definition uncastable (d : DataFrame) (col : string) (c : clause) (e : exn) : Prop :=
  on_column col c ∧ ∃ v, last c = Some v ∧ val_as_col_dtype d v col = inl e.

(** The dataframe the retyping pass reads: [post.df] once the clause is
    appended and [update_filter] has applied the declared types. *)
Definition retyping_df (s : SessionState) (col op : string) (v : Native) : DataFrame :=
  let key := filter_type (inputs s) in
  df (post (final (append_filter key col (prepared_clause s col op v)
                     (final (prepare_filter key col op v s))))).

(** Every clause on the column, in each of the three lists, holds after the
    add the re-cast of what it held before. *)
Definition retyped_in_every_list (col : string) (s s' : SessionState) : Prop :=
  ∀ k i c,
    session_list k s !! i = Some c → on_column col c →
    session_list k s' !! i = recast (df (post s')) col c.

(** The three lists are what they were. *)
Definition same_filters (s s' : SessionState) : Prop :=
  st_and s' = st_and s ∧ st_or s' = st_or s ∧ st_series s' = st_series s.

(** A clause that holds the string of the author's value cast through the
    declared column type. *)
Definition cast_once (s : SessionState) (col op : string) (v : Native) (c : clause) : Prop :=
  ∃ w, val_as_dtype v (dtype_lookup !! filter_column_type (inputs s)) = inr w
       ∧ c = match filter_type (inputs s) with
             | Series => [col; native_str w]
             | _ => [col; op; native_str w]
             end.

(** The two alternatives of a [UnitsSpec] or [ScalingSpec] are not both
    there. *)
Definition exclusive (spec : option pyobj) : Prop :=
  ¬ (is_Some (get_dict spec !! "custom") ∧ is_Some (get_dict spec !! "column")).

(** The units of the two axes. *)
Definition units_of (s : SessionState) : option pyobj * option pyobj :=
  (x_axis (config s) !! "units", y_axis (config s) !! "units").

(** The selection of the scaling series is one of the series filters, so its
    index can be taken. *)
Definition series_selectable (s : SessionState) : Prop :=
  match y_axis_scaling_series (inputs s) with
  | Some (x :: l) => x :: l ∈ series_filters (config s)
  | _ => True
  end.

(** A computation leaves a component of the session state as it found it,
    whatever its outcome. *)
Definition keeps {A T} (f : SessionState → T) (m : M SessionState A) : Prop :=
  ∀ s, f (final (m s)) = f s.

(** A computation never raises. *)
Definition total {A} (m : M SessionState A) : Prop :=
  ∀ s, returned (m s).

End Properties.

(** ** Sessions of the examples *)

Module Examples.
Import Sample.

Definition no_input (k : kind) (ty : string) : Inputs :=
  {| x_axis_column := None; x_axis_type := "str";
     x_axis_units_column := None; x_axis_units_custom := None;
     y_axis_column := None; y_axis_type := "str";
     y_axis_units_column := None; y_axis_units_custom := None;
     y_axis_scaling_column := None; y_axis_scaling_type := "str";
     y_axis_scaling_series := None; y_axis_scaling_x_value := None;
     y_axis_custom_scaling_val := None;
     filter_type := k; filter_column_type := ty;
     extra_col := None; uploaded_config := None |}.

(** A configuration that shares the session's three lists. *)
Definition shared_config (types : gmap colname string) : ConfigHandler :=
  set_column_types types
    (set_filters_ref And (SessionList And)
       (set_filters_ref Or (SessionList Or)
          (set_filters_ref Series (SessionList Series) empty_template))).

Definition session (d : table) (types : gmap colname string) (i : Inputs)
    (ands ors sers : list clause) : SessionState :=
  {| post := {| df := d; original_df := d; mask := []; scale := None; plot := None |};
     config := shared_config types; inputs := i;
     st_and := ands; st_or := ors; st_series := sers; ui := [] |}.

(** Column [a] holds integers, column [b] text. *)
Definition int_table : table :=
  [("a", ("Int64", ["1"; "2"])); ("b", ("object", ["x"; "y"]))].

(** Column [a] holds numbers that are not all whole. *)
Definition float_table : table :=
  [("a", ("float64", ["1.5"; "2.0"]))].

(** Both columns hold text; the text of [a] reads as numbers. *)
Definition text_table : table :=
  [("a", ("object", ["1"; "2"])); ("b", ("object", ["x"; "y"]))].

Definition declared (ty : string) : gmap colname string := {[ Some "a" := ty ]}.

(** A clause on the integer column [a] in the AND list; the author adds an
    OR clause on [a] typed as float. *)
Definition other_kind_session : SessionState :=
  session int_table (declared "int") (no_input Or "float")
    [["a"; "=="; "1"]] [] [].

(** The same, with clauses in the OR list already. *)
Definition own_list_session : SessionState :=
  session int_table (declared "int") (no_input Or "float")
    [["a"; "=="; "1"]] [["a"; "=="; "3"]; ["b"; "=="; "x"]] [].

(** Two AND clauses on the text column [a], the second one not a number; the
    author adds an AND clause on [a] typed as float. *)
Definition partial_retype_session : SessionState :=
  session text_table (declared "str") (no_input And "float")
    [["a"; "=="; "1"]; ["a"; "=="; "x"]] [] [].

(** The clause that is not a number comes first among those on [a]. *)
Definition rollback_session : SessionState :=
  session text_table (declared "str") (no_input And "float")
    [["b"; "=="; "x"]; ["a"; "=="; "x"]; ["a"; "=="; "1"]] [] [].

Definition duplicate_session : SessionState :=
  session int_table (declared "int") (no_input And "int")
    [["a"; "=="; "1"]] [] [].

(** No filters yet; the author types a clause on the float column [a] as
    int, which the column's values do not allow. *)
Definition second_cast_session : SessionState :=
  session float_table (declared "float") (no_input And "int") [] [] [].

Definition series_session : SessionState :=
  session int_table (declared "int") (no_input Series "float") [] [] [].

(** A document with a title and no axis columns: it does not validate. *)
Definition untitled_axes_doc : ConfigDoc :=
  {| d_title := Some "Throughput";
     d_x_axis := d_x_axis template_doc; d_y_axis := d_y_axis template_doc;
     d_column_types := ∅; d_and := []; d_or := []; d_series := [];
     d_extra_columns := [] |}.

Definition upload_session : SessionState :=
  {| post := {| df := int_table; original_df := int_table; mask := [];
                scale := None; plot := Some tt |};
     config := shared_config (declared "int");
     inputs :=
       {| x_axis_column := None; x_axis_type := "str";
          x_axis_units_column := None; x_axis_units_custom := None;
          y_axis_column := None; y_axis_type := "str";
          y_axis_units_column := None; y_axis_units_custom := None;
          y_axis_scaling_column := None; y_axis_scaling_type := "str";
          y_axis_scaling_series := None; y_axis_scaling_x_value := None;
          y_axis_custom_scaling_val := None;
          filter_type := And; filter_column_type := "str";
          extra_col := None; uploaded_config := Some (Some untitled_axes_doc) |};
     st_and := []; st_or := []; st_series := []; ui := [] |}.

(** Axes [b] against [a], scaled by column [a], nothing selected for the
    series or the x-axis value. *)
Definition scaling_session : SessionState :=
  {| post := {| df := int_table; original_df := int_table; mask := [];
                scale := None; plot := None |};
     config := shared_config ∅;
     inputs :=
       {| x_axis_column := Some "b"; x_axis_type := "str";
          x_axis_units_column := None; x_axis_units_custom := None;
          y_axis_column := Some "a"; y_axis_type := "int";
          y_axis_units_column := None; y_axis_units_custom := Some "s";
          y_axis_scaling_column := Some "a"; y_axis_scaling_type := "int";
          y_axis_scaling_series := None; y_axis_scaling_x_value := None;
          y_axis_custom_scaling_val := None;
          filter_type := And; filter_column_type := "str";
          extra_col := None; uploaded_config := None |};
     st_and := []; st_or := []; st_series := []; ui := [] |}.

(** Column [a] is plotted and picked as an extra column. *)
Definition extra_session : SessionState :=
  {| post := {| df := int_table; original_df := int_table; mask := [];
                scale := None; plot := None |};
     config := set_columns [Some "a"; Some "b"] [Some "a"; Some "b"]
                 (shared_config (declared "int"));
     inputs :=
       {| x_axis_column := Some "a"; x_axis_type := "int";
          x_axis_units_column := None; x_axis_units_custom := None;
          y_axis_column := Some "b"; y_axis_type := "str";
          y_axis_units_column := None; y_axis_units_custom := None;
          y_axis_scaling_column := None; y_axis_scaling_type := "str";
          y_axis_scaling_series := None; y_axis_scaling_x_value := None;
          y_axis_custom_scaling_val := None;
          filter_type := And; filter_column_type := "str";
          extra_col := Some "a"; uploaded_config := None |};
     st_and := []; st_or := []; st_series := []; ui := [] |}.

End Examples.

(** ** The rest of the front end *)

Section MoreCallbacks.
Context `{B : Backend}.

(** Lines 161 and 255, the default of the type select boxes:
    [column_types.index(type_lookup.get(str(df[name].dtype)))] for the column
    the axis names, 0 when it names none.  The axis value is a column name
    or [None], as [update_axes] writes it. *)
Definition default_type_index (d : DataFrame) (axis : gmap string pyobj) : exn + nat :=
  if truthy (axis_value axis) then
    match name ← axis_value axis; native_dtype d name with
    | None => inl "KeyError"
    | Some dt =>
        match type_lookup !! dt with
        | Some ty =>
            match py_index ty column_type_names with
            | Some i => inr i
            | None => inl "ValueError"
            end
        | None => inl "ValueError"
        end
    end
  else inr 0.

(** Warn the user if the current session state config is invalid before
    download.  [describe e] is [str(e)]. *)
Definition validate_download_config (describe : exn → string) : M SessionState unit :=
  try_except
    ((* validate config *)
     do d <- gets to_dict in lift (read_config d))
    (λ e,
       st_warning ("Download successful." +:+ String "010" (String "010" "")
                   +:+ e +:+ ": " +:+ describe e) ;;;
       clear_plot).

End MoreCallbacks.

(** [str.lower()] and [str.replace(" ", "_")] on a title written in ASCII
    (one byte per character; the case mapping of other alphabets is not
    covered). *)
Definition lower_char (a : ascii) : ascii :=
  let n := nat_of_ascii a in
  if (65 <=? n) && (n <=? 90) then ascii_of_nat (n + 32) else a.

Fixpoint py_lower (s : string) : string :=
  match s with
  | EmptyString => EmptyString
  | String a s' => String (lower_char a) (py_lower s')
  end.

Fixpoint replace_spaces (s : string) : string :=
  match s with
  | EmptyString => EmptyString
  | String a s' =>
      String (if Ascii.eqb a " "%char then "_"%char else a) (replace_spaces s')
  end.

(** Line 100 of [update_ui], the name of the downloaded file:
    ["{0}_config.yaml".format((config.title).lower().replace(" ", "_"))] *)
Definition config_file_name (title : string) : string :=
  replace_spaces (py_lower title) +:+ "_config.yaml".

(** A clause without its last entry: the column, and the operator if there
    is one. *)
Definition but_last (c : clause) : clause := take (pred (length c)) c.

(** How a clause may differ after the retyping loop went over it: only in
    its last entry, and not at all if it is on another column. *)
Definition revalued (col : string) (c c' : clause) : Prop :=
  but_last c' = but_last c ∧ length c' = length c
  ∧ (head c ≠ Some col → c' = c)
  ∧ (length c ≠ 1 → head c' = head c).

(** What lies beyond the reach of the filter callbacks: the widget values,
    the axes, the title, the extra columns and the original snapshot. *)
Definition beyond_filters `{B : Backend} (s : SessionState) :=
  (inputs s, x_axis (config s), y_axis (config s), title (config s),
   extra_columns (config s), original_df (post s)).

(** A title written in ASCII. *)
Definition ascii_title (title : string) : Prop :=
  Forall (λ a, nat_of_ascii a < 128) (list_ascii_of_string title).

Module MoreExamples.
Import Sample Examples.

(** Two series, the second selected for the scaling; the x axis sorted
    descending. *)
Definition series_scaling_session : SessionState :=
  {| post := {| df := int_table; original_df := int_table; mask := [];
                scale := None; plot := None |};
     config :=
       set_x_axis {[ "value" := PStr "b"; "sort" := PStr "descending" ]}
         (set_series_filters [["b"; "=="; "x"]; ["b"; "=="; "y"]]
            (shared_config (declared "int")));
     inputs :=
       {| x_axis_column := Some "b"; x_axis_type := "str";
          x_axis_units_column := None; x_axis_units_custom := None;
          y_axis_column := Some "a"; y_axis_type := "int";
          y_axis_units_column := None; y_axis_units_custom := None;
          y_axis_scaling_column := Some "a"; y_axis_scaling_type := "int";
          y_axis_scaling_series := Some ["b"; "=="; "y"];
          y_axis_scaling_x_value := Some "x";
          y_axis_custom_scaling_val := None;
          filter_type := Series; filter_column_type := "str";
          extra_col := Some "b"; uploaded_config := None |};
     st_and := []; st_or := []; st_series := [["b"; "x"]; ["b"; "y"]]; ui := [] |}.

(** The same with a series selected that is not one of the series filters. *)
Definition stale_series_session : SessionState :=
  {| post := post series_scaling_session;
     config := config series_scaling_session;
     inputs :=
       {| x_axis_column := Some "b"; x_axis_type := "str";
          x_axis_units_column := None; x_axis_units_custom := None;
          y_axis_column := Some "a"; y_axis_type := "int";
          y_axis_units_column := None; y_axis_units_custom := None;
          y_axis_scaling_column := Some "a"; y_axis_scaling_type := "int";
          y_axis_scaling_series := Some ["b"; "=="; "z"];
          y_axis_scaling_x_value := None;
          y_axis_custom_scaling_val := None;
          filter_type := Series; filter_column_type := "str";
          extra_col := Some "b"; uploaded_config := None |};
     st_and := []; st_or := []; st_series := [["b"; "x"]; ["b"; "y"]]; ui := [] |}.

(** An upload that is not YAML. *)
Definition broken_upload_session : SessionState :=
  {| post := post upload_session; config := config upload_session;
     inputs :=
       {| x_axis_column := None; x_axis_type := "str";
          x_axis_units_column := None; x_axis_units_custom := None;
          y_axis_column := None; y_axis_type := "str";
          y_axis_units_column := None; y_axis_units_custom := None;
          y_axis_scaling_column := None; y_axis_scaling_type := "str";
          y_axis_scaling_series := None; y_axis_scaling_x_value := None;
          y_axis_custom_scaling_val := None;
          filter_type := And; filter_column_type := "str";
          extra_col := None; uploaded_config := Some None |};
     st_and := []; st_or := []; st_series := []; ui := [] |}.

(** A document that validates against [int_table]: [a] against [b]. *)
Definition plotted_doc : ConfigDoc :=
  {| d_title := Some "Throughput";
     d_x_axis := {[ "value" := PStr "b"; "units" := PDict {[ "custom" := PNone ]} ]};
     d_y_axis := {[ "value" := PStr "a"; "units" := PDict {[ "custom" := PNone ]};
                    "scaling" := PDict {[ "custom" := PNone ]} ]};
     d_column_types := {[ Some "a" := "int"; Some "b" := "str" ]};
     d_and := []; d_or := []; d_series := [];
     d_extra_columns := [] |}.

Definition valid_upload_session : SessionState :=
  {| post := post upload_session; config := config upload_session;
     inputs :=
       {| x_axis_column := None; x_axis_type := "str";
          x_axis_units_column := None; x_axis_units_custom := None;
          y_axis_column := None; y_axis_type := "str";
          y_axis_units_column := None; y_axis_units_custom := None;
          y_axis_scaling_column := None; y_axis_scaling_type := "str";
          y_axis_scaling_series := None; y_axis_scaling_x_value := None;
          y_axis_custom_scaling_val := None;
          filter_type := And; filter_column_type := "str";
          extra_col := None; uploaded_config := Some (Some plotted_doc) |};
     st_and := []; st_or := []; st_series := []; ui := [] |}.

(** A table with a column of a native type the front end has no name for. *)
Definition numpy_table : table :=
  [("a", ("Int64", ["1"])); ("n", ("int64", ["1"]))].

End MoreExamples.

(** ** Frames: what a computation leaves alone *)

Section Frames.
Context `{B : Backend}.

Lemma keeps_ret {A T} (f : SessionState → T) (a : A) : keeps f (ret a).
Proof. by intros s. Qed.

Lemma keeps_raise {A T} (f : SessionState → T) e : keeps f (raise (A:=A) e).
Proof. by intros s. Qed.

Lemma keeps_gets {A T} (f : SessionState → T) (g : SessionState → A) : keeps f (gets g).
Proof. by intros s. Qed.

Lemma keeps_lift {A T} (f : SessionState → T) (r : exn + A) : keeps f (lift r).
Proof. by destruct r; intros s. Qed.

Lemma keeps_modify {T} (f : SessionState → T) g :
  (∀ s, f (g s) = f s) → keeps f (modify g).
Proof. intros H s. apply H. Qed.

Lemma keeps_bind {A C T} (f : SessionState → T) (m : M SessionState A)
    (k : A → M SessionState C) :
  keeps f m → (∀ a, keeps f (k a)) → keeps f (bind m k).
Proof.
  intros Hm Hk s. unfold bind. specialize (Hm s).
  destruct (m s) as [a s'|e s']; simpl in *; [|done].
  by rewrite Hk.
Qed.

Lemma keeps_try {A T} (f : SessionState → T) (m : M SessionState A) h :
  keeps f m → (∀ e, keeps f (h e)) → keeps f (try_except m h).
Proof.
  intros Hm Hh s. unfold try_except. specialize (Hm s).
  destruct (m s) as [a s'|e s']; simpl in *; [done|].
  by rewrite Hh.
Qed.

Lemma keeps_on_df {A T} (f : SessionState → T) (m : M DataFrame A) :
  (∀ d s, f (with_post (set_df d) s) = f s) → keeps f (on_df m).
Proof.
  intros H s. unfold on_df. destruct (m (df (post s))); simpl; apply H.
Qed.

Lemma total_ret {A} (a : A) : total (ret a).
Proof. by intros s. Qed.

Lemma total_gets {A} (g : SessionState → A) : total (gets g).
Proof. by intros s. Qed.

Lemma total_modify g : total (modify g).
Proof. by intros s. Qed.

Lemma total_bind {A C} (m : M SessionState A) (k : A → M SessionState C) :
  total m → (∀ a, total (k a)) → total (bind m k).
Proof.
  intros Hm Hk s. unfold bind. specialize (Hm s).
  destruct (m s) as [a s'|e s']; simpl in *; [apply Hk|done].
Qed.

Lemma total_try {A} (m : M SessionState A) h :
  (∀ e, total (h e)) → total (try_except m h).
Proof.
  intros Hh s. unfold try_except. destruct (m s); [done|apply Hh].
Qed.

Lemma returned_Ok {A} (r : Res SessionState A) :
  returned r → ∃ a, r = Ok a (final r).
Proof. destruct r; [eauto|done]. Qed.

End Frames.


Ltac frame :=
  repeat first
    [ apply keeps_bind; [|intros ?]
    | apply keeps_try; [|intros ?]
    | apply total_bind; [|intros ?]
    | apply total_try; intros ?
    | apply keeps_ret | apply keeps_raise | apply keeps_gets | apply keeps_lift
    | apply total_ret | apply total_gets | apply total_modify
    | apply keeps_modify; by intros []
    | apply keeps_on_df; by intros ? []
    | match goal with |- keeps _ (if ?b then _ else _) => destruct b end
    | match goal with |- keeps _ (match ?x with _ => _ end) => destruct x end ].

Section Frames2.
Context `{B : Backend}.

Lemma update_types_total : total update_types.
Proof. unfold update_types, parse_columns, remove_redundant_types, st_exception, clear_plot. frame. Qed.

Lemma update_types_keeps_lists k : keeps (session_list k) update_types.
Proof.
  unfold update_types, parse_columns, remove_redundant_types, st_exception, clear_plot.
  frame.
Qed.
End Frames2.

Section AddFilter.
Context `{B : Backend}.

Lemma prepare_filter_spec col op v s :
  ∃ s', prepare_filter (filter_type (inputs s)) col op v s
          = Ok (prepared_clause s col op v) s' ∧
        (s' = s ∨ ∃ e, val_as_dtype v (dtype_lookup !! filter_column_type (inputs s)) = inl e
                       ∧ s' = with_ui (λ l, l ++ [StException e]) s).
Proof.
  unfold prepare_filter, prepared_clause, prepared_value, bind, gets, try_except, lift.
  destruct (val_as_dtype v _) as [e|w] eqn:Hcast; simpl.
  - eexists; split; [by destruct (filter_type (inputs s))|]. right. eauto.
  - eexists; split; [by destruct (filter_type (inputs s))|]. by left.
Qed.

(** The page after the value is prepared: the failure of the cast, if it
    fails, is the one report added. *)
Lemma prepare_filter_run col op v s :
  prepare_filter (filter_type (inputs s)) col op v s
  = Ok (prepared_clause s col op v)
       (match val_as_dtype v (dtype_lookup !! filter_column_type (inputs s)) with
        | inr _ => s
        | inl e => with_ui (λ l, l ++ [StException e]) s
        end).
Proof.
  unfold prepare_filter, prepared_clause, prepared_value, bind, gets, try_except, lift.
  destruct (val_as_dtype v _) as [e|w]; simpl; by destruct (filter_type (inputs s)).
Qed.

Theorem add_filter_duplicate_refused s col op v :
  prepared_clause s col op v ∈ session_list (filter_type (inputs s)) s →
  ∃ s', add_filter col op (Some v) s = Ok tt s' ∧
        last (ui s') = Some (StWarning "Currently selected filter is already present.") ∧
        st_and s' = st_and s ∧ st_or s' = st_or s ∧ st_series s' = st_series s ∧
        config s' = config s ∧ post s' = post s.
Proof.
  intros Hin.
  destruct (prepare_filter_spec col op v s) as (s1 & Hprep & Hs1).
  unfold add_filter, bind at 1, gets at 1. unfold bind at 1. rewrite Hprep.
  unfold bind, gets.
  assert (Hlist : session_list (filter_type (inputs s)) s1
                  = session_list (filter_type (inputs s)) s).
  { destruct Hs1 as [->|(e & _ & ->)]; [done|]. by destruct s, (filter_type _). }
  rewrite Hlist, bool_decide_eq_false_2 by (by intros Hn).
  unfold st_warning, modify. eexists; split; [done|].
  destruct Hs1 as [->|(e & _ & ->)]; simpl; by rewrite last_snoc.
Qed.
End AddFilter.

Section PyLists.
Context {A : Type} `{EqDecision A}.

Lemma py_index_Some (x : A) l i :
  py_index x l = Some i → l !! i = Some x ∧ ∀ k, k < i → l !! k ≠ Some x.
Proof.
  revert i. induction l as [|y l IH]; intros i; simpl; [done|].
  case_decide as Hy.
  - intros [= <-]. split; [by subst|]. intros k Hk. lia.
  - destruct (py_index x l) as [i'|] eqn:Hi; simpl; [|done].
    intros [= <-]. destruct (IH i' eq_refl) as [Hl Hmin]. split; [done|].
    intros [|k] Hk; simpl; [congruence|]. apply Hmin. lia.
Qed.

Lemma py_index_elem (x : A) l : x ∈ l → is_Some (py_index x l).
Proof.
  induction 1 as [|y z l Hin IH]; simpl.
  - by rewrite decide_True.
  - case_decide; [done|]. destruct IH as [i ->]. done.
Qed.

Lemma py_index_le (x : A) l i j :
  py_index x l = Some i → l !! j = Some x → i ≤ j.
Proof.
  intros Hi Hj. apply py_index_Some in Hi as [_ Hmin].
  destruct (decide (i ≤ j)) as [|Hn]; [done|]. exfalso. apply (Hmin j); [lia|done].
Qed.

Lemma py_remove_snoc (x : A) l : x ∉ l → py_remove x (l ++ [x]) = Some l.
Proof.
  induction l as [|y l IH]; simpl; intros Hx.
  - by rewrite decide_True.
  - rewrite decide_False by (intros ->; apply Hx; left).
    rewrite IH; [done|]. intros ?. apply Hx. by right.
Qed.

End PyLists.

Section Retyping.
Context `{B : Backend}.

Lemma session_list_set k l s : session_list k (set_session_list k l s) = l.
Proof. by destruct k. Qed.

Lemma session_list_set_ne k k' l s :
  k' ≠ k → session_list k' (set_session_list k l s) = session_list k' s.
Proof. by destruct k, k'. Qed.

Lemma set_session_list_id k s : set_session_list k (session_list k s) s = s.
Proof. by destruct s, k. Qed.

Lemma set_session_list_twice k l l' s :
  set_session_list k l (set_session_list k l' s) = set_session_list k l s.
Proof. by destruct k. Qed.

Lemma set_last_last (c : clause) v : last c = Some v → set_last c v = c.
Proof.
  intros Hl. unfold set_last. apply list_insert_id.
  by rewrite <-last_lookup.
Qed.

Lemma recast_Some d col c c' :
  recast d col c = Some c' →
  ∃ v w, last c = Some v ∧ val_as_col_dtype d v col = inr w
         ∧ c' = set_last c (native_str w).
Proof.
  unfold recast. destruct (last c) as [v|]; simpl; [|done].
  destruct (val_as_col_dtype d v col) as [e|w] eqn:Hc; [done|].
  intros [= <-]. eauto.
Qed.

Lemma retyped_off d col c : head c ≠ Some col → retyped d col c = c.
Proof. intros. unfold retyped. by rewrite decide_False. Qed.

Lemma retyped_on d col c c' :
  head c = Some col → recast d col c = Some c' → retyped d col c = c'.
Proof. intros H1 H2. unfold retyped. by rewrite decide_True, H2. Qed.

(** One turn of the loop on a clause of the column whose cast goes through:
    the first clause equal to it gets the string of the cast. *)
Lemma retype_loop_step key col n j s l f i c' :
  session_list key s = l → l !! j = Some f → head f = Some col →
  py_index f l = Some i → recast (df (post s)) col f = Some c' →
  retype_loop key col (S n) j s
  = retype_loop key col n (S j) (set_session_list key (<[i := c']> l) s).
Proof.
  intros Hl Hj Hhead Hi Hre.
  apply recast_Some in Hre as (v & w & Hlast & Hcast & ->).
  apply py_index_Some in Hi as Hi'. destruct Hi' as [Hli _].
  simpl. unfold bind at 1, gets at 1. rewrite Hl, Hj.
  unfold bind at 1, item0. rewrite Hhead. unfold ret at 1.
  rewrite String.eqb_refl, Hi, Hli.
  unfold bind at 1. unfold bind at 1, item_last. rewrite Hlast. unfold ret at 1.
  unfold bind at 1, gets at 1. unfold bind at 1. rewrite Hcast. simpl.
  unfold modify. done.
Qed.

Lemma retype_loop_skip key col n j s l f h :
  session_list key s = l → l !! j = Some f → head f = Some h → h ≠ col →
  retype_loop key col (S n) j s = retype_loop key col n (S j) s.
Proof.
  intros Hl Hj Hhead Hne.
  simpl. unfold bind at 1, gets at 1. rewrite Hl, Hj.
  unfold bind at 1, item0. rewrite Hhead. unfold ret at 1.
  apply String.eqb_neq in Hne. rewrite Hne. done.
Qed.

Lemma retype_loop_raise key col n j s l f i e :
  session_list key s = l → l !! j = Some f → py_index f l = Some i →
  uncastable (df (post s)) col f e →
  retype_loop key col (S n) j s = Raise e s.
Proof.
  intros Hl Hj Hi (Hhead & v & Hlast & Hcast).
  apply py_index_Some in Hi as Hi'. destruct Hi' as [Hli _].
  simpl. unfold bind at 1, gets at 1. rewrite Hl, Hj.
  unfold bind at 1, item0. rewrite Hhead. unfold ret at 1.
  rewrite String.eqb_refl, Hi, Hli.
  unfold bind at 1. unfold bind at 1, item_last. rewrite Hlast. unfold ret at 1.
  unfold bind at 1, gets at 1. unfold bind at 1. rewrite Hcast. done.
Qed.

End Retyping.

Section RetypingLoop.
Context `{B : Backend}.

(** The loop, run from position [j] on a list whose first [j] clauses have
    been re-cast, re-casts the rest: every cast goes through, and casting a
    cast value again changes nothing. *)
Lemma retype_loop_spec key col d L : 
  Forall (castable d col) L → Forall (canonical d col) L →
  ∀ n j s,
    df (post s) = d → length L = j + n →
    session_list key s = (retyped d col <$> take j L) ++ drop j L →
    retype_loop key col n j s
    = Ok tt (set_session_list key (retyped d col <$> L) s).
Proof.
  intros Hcast Hcan. induction n as [|n IH]; intros j s Hd Hlen Hcur.
  { simpl. unfold ret. f_equal.
    rewrite take_ge, drop_ge, app_nil_r in Hcur by lia.
    by rewrite <-Hcur, set_session_list_id. }
  destruct (lookup_lt_is_Some_2 L j) as [f Hf]; [lia|].
  assert (Hcurj : session_list key s !! j = Some f).
  { rewrite Hcur, lookup_app_r; rewrite length_fmap, length_take_le by lia; [|done].
    by rewrite Nat.sub_diag, lookup_drop, Nat.add_0_r. }
  assert (Hnext : ∀ c, retyped d col f = c →
            (retyped d col <$> take j L) ++ c :: drop (S j) L
            = (retyped d col <$> take (S j) L) ++ drop (S j) L).
  { intros c <-. erewrite take_S_r by done. by rewrite fmap_app, <-app_assoc. }
  pose proof (proj1 (Forall_lookup _ _) Hcast j f Hf) as [[h Hh] Hre].
  destruct (decide (h = col)) as [->|Hne].
  - destruct (Hre Hh) as [c' Hc'].
    destruct (py_index_elem f (session_list key s)) as [i Hi].
    { by eapply list_elem_of_lookup_2. }
    pose proof (py_index_le _ _ _ _ Hi Hcurj) as Hle.
    rewrite <-Hd in Hc'.
    rewrite (retype_loop_step key col n j s _ f i c' eq_refl Hcurj Hh Hi Hc').
    rewrite Hd in Hc'.
    rewrite IH; [by rewrite set_session_list_twice|done|lia|].
    rewrite session_list_set.
    destruct (decide (i = j)) as [->|Hij].
    + rewrite Hcur, insert_app_r_alt; rewrite length_fmap, length_take_le by lia; [|done].
      rewrite Nat.sub_diag. erewrite drop_S by done. simpl.
      apply Hnext. by apply retyped_on.
    + (* an earlier clause, already re-cast, equals this one *)
      assert (Hlt : i < j) by lia.
      apply py_index_Some in Hi as [Hi _]. pose proof Hi as Hcuri.
      rewrite Hcur, lookup_app_l in Hi by (rewrite length_fmap, length_take_le; lia).
      rewrite list_lookup_fmap, lookup_take_lt in Hi by done.
      destruct (L !! i) as [li|] eqn:Hli; simpl in Hi; [|done].
      injection Hi as Hi.
      pose proof (proj1 (Forall_lookup _ _) Hcast i li Hli) as [_ Hrei].
      pose proof (proj1 (Forall_lookup _ _) Hcan i li Hli) as Hcani.
      assert (Hfix : recast d col f = Some f).
      { unfold retyped in Hi. case_decide as Hon.
        - destruct (Hrei Hon) as [x Hx]. rewrite Hx in Hi. simpl in Hi. subst x.
          by apply Hcani.
        - subst li. by destruct Hon. }
      assert (c' = f) as -> by congruence.
      rewrite (list_insert_id _ _ _ Hcuri).
      rewrite Hcur at 1. erewrite drop_S by done.
      apply Hnext. by apply retyped_on.
  - rewrite (retype_loop_skip key col n j s _ f h eq_refl Hcurj Hh Hne).
    rewrite IH; [done|done|lia|].
    rewrite Hcur. erewrite drop_S by done.
    apply Hnext. apply retyped_off. congruence.
Qed.

(** The loop raises at the first clause of the column whose value cannot be
    cast, and has changed nothing if the clauses before it were settled. *)
Lemma retype_loop_fails key col d pre c rest e :
  Forall (settled d col) pre → uncastable d col c e →
  ∀ n j s,
    df (post s) = d → session_list key s = pre ++ c :: rest →
    j ≤ length pre → length pre < j + n →
    retype_loop key col n j s = Raise e s.
Proof.
  intros Hpre Hc. induction n as [|n IH]; intros j s Hd Hcur Hj Hn; [lia|].
  destruct (decide (j = length pre)) as [->|Hlt].
  - assert (Hcj : session_list key s !! length pre = Some c).
    { by rewrite Hcur, list_lookup_middle. }
    destruct (py_index_elem c (session_list key s)) as [i Hi].
    { by eapply list_elem_of_lookup_2. }
    rewrite <-Hd in Hc.
    exact (retype_loop_raise key col n (length pre) s _ c i e eq_refl Hcj Hi Hc).
  - destruct (lookup_lt_is_Some_2 pre j) as [f Hf]; [lia|].
    assert (Hcurj : session_list key s !! j = Some f).
    { rewrite Hcur, lookup_app_l by lia. done. }
    pose proof (proj1 (Forall_lookup _ _) Hpre j f Hf) as [[h Hh] Hre].
    destruct (decide (h = col)) as [->|Hne].
    + destruct (py_index_elem f (session_list key s)) as [i Hi].
      { by eapply list_elem_of_lookup_2. }
      specialize (Hre Hh). rewrite <-Hd in Hre.
      rewrite (retype_loop_step key col n j s _ f i f eq_refl Hcurj Hh Hi Hre).
      apply py_index_Some in Hi as [Hi _].
      rewrite list_insert_id, set_session_list_id by done.
      apply IH; [done|done|lia|lia].
    + rewrite (retype_loop_skip key col n j s _ f h eq_refl Hcurj Hh Hne).
      apply IH; [done|done|lia|lia].
Qed.

End RetypingLoop.

Section AddFilterSteps.
Context `{B : Backend}.

Lemma update_types_keeps_inputs : keeps inputs update_types.
Proof.
  unfold update_types, parse_columns, remove_redundant_types, st_exception, clear_plot.
  frame.
Qed.

Lemma update_filter_total key : total (update_filter key).
Proof. unfold update_filter, parse_filters. frame; try apply update_types_total. Qed.

Lemma update_filter_keeps_lists key k : keeps (session_list k) (update_filter key).
Proof. unfold update_filter, parse_filters. frame; try apply update_types_keeps_lists. Qed.

Lemma update_filter_keeps_inputs key : keeps inputs (update_filter key).
Proof. unfold update_filter, parse_filters. frame; try apply update_types_keeps_inputs. Qed.

(** What [update_filter] adds to the page, and that it never restores a
    plot. *)
Lemma update_filter_reports key s :
  ui s `prefix_of` ui (final (update_filter key s))
  ∧ (plot (post s) = None → plot (post (final (update_filter key s))) = None)
  ∧ filters_ref key (config (final (update_filter key s))) = SessionList key.
Proof.
  unfold update_filter, parse_filters, update_types, parse_columns,
    remove_redundant_types, st_exception, clear_plot, bind, modify, gets,
    try_except, on_df.
  simpl. destruct (apply_df_types _ _ _) as [[] d'|e d']; simpl.
  - split; [done|]. split; [done|]. by destruct key.
  - split; [by apply prefix_app_r|]. split; [done|]. by destruct key.
Qed.

Lemma retype_loop_keeps key col k n :
  k ≠ key → ∀ j, keeps (session_list k) (retype_loop key col n j).
Proof.
  intros Hk. induction n as [|n IH]; intros j; simpl; [apply keeps_ret|].
  unfold item0, item_last.
  repeat first
    [ apply IH
    | apply keeps_modify; intros; by apply session_list_set_ne
    | progress frame ].
Qed.

Lemma append_filter_spec key col f s :
  ∃ s1, append_filter key col f s = Ok tt s1
        ∧ session_list key s1 = session_list key s ++ [f]
        ∧ (∀ k, k ≠ key → session_list k s1 = session_list k s)
        ∧ inputs s1 = inputs s.
Proof.
  unfold append_filter, bind at 1. unfold bind at 1, gets at 1, modify at 1.
  set (s0 := set_session_list key _ s).
  set (m := bind _ _).
  assert (Ht : total m).
  { unfold m, set_type. frame; try apply update_filter_total. }
  assert (Hk : ∀ k, keeps (session_list k) m).
  { intros k. unfold m, set_type. frame; try apply update_filter_keeps_lists. }
  assert (Hi : keeps inputs m).
  { unfold m, set_type. frame; try apply update_filter_keeps_inputs. }
  destruct (returned_Ok _ (Ht s0)) as [[] Hr].
  exists (final (m s0)). split; [done|].
  rewrite !Hk, Hi. split; [apply session_list_set|].
  split; [|by destruct s, key].
  intros k Hne. rewrite Hk. by apply session_list_set_ne.
Qed.

(** Appending a clause takes no report off the page. *)
Lemma append_filter_page key col f s :
  ui s `prefix_of` ui (final (append_filter key col f s)).
Proof.
  unfold append_filter, bind at 1. unfold bind at 1, gets at 1, modify at 1.
  unfold bind at 1. unfold bind at 1, gets at 1, set_type, modify.
  etrans; [|apply update_filter_reports]. by destruct key.
Qed.

(** The lists of the other kinds are out of reach of [add_filter]. *)
Lemma add_filter_other_lists col op val s k :
  k ≠ filter_type (inputs s) →
  session_list k (final (add_filter col op val s)) = session_list k s.
Proof.
  intros Hk. unfold add_filter, bind at 1, gets at 1.
  generalize dependent (filter_type (inputs s)). intros key Hk. revert s.
  match goal with |- ∀ s, ?f (final (?m s)) = ?f s => change (keeps f m) end.
  unfold prepare_filter, append_filter, retype_filters, remove_filter, set_type,
    st_warning, st_exception, clear_plot.
  repeat first
    [ apply update_filter_keeps_lists
    | apply retype_loop_keeps; done
    | apply keeps_modify; intros; by apply session_list_set_ne
    | progress frame ].
Qed.

End AddFilterSteps.

Section AddFilterOutcome.
Context `{B : Backend}.

(** The state the [try] block of [add_filter] starts in and the one its
    retyping pass starts in. *)
Lemma add_filter_enters s col op v :
  let key := filter_type (inputs s) in
  let f := prepared_clause s col op v in
  f ∉ session_list key s →
  ∃ sp s1,
    prepare_filter key col op v s = Ok f sp
    ∧ append_filter key col f sp = Ok tt s1
    ∧ session_list key s1 = session_list key s ++ [f]
    ∧ df (post s1) = retyping_df s col op v
    ∧ add_filter col op (Some v) s
      = try_except
          (append_filter key col f ;;; retype_filters key col)
          (λ e, st_exception e ;;; clear_plot ;;;
                remove_filter key (length (session_list key s)) ;;;
                update_filter key) sp.
Proof.
  intros key f Hnew. subst key f.
  set (key := filter_type (inputs s)) in *.
  destruct (prepare_filter_spec col op v s) as (sp & Hprep & Hsp).
  fold key in Hprep.
  assert (Hlist : session_list key sp = session_list key s).
  { destruct Hsp as [->|(e & _ & ->)]; [done|]. by destruct s, key. }
  destruct (append_filter_spec key col (prepared_clause s col op v) sp)
    as (s1 & Happ & Hl1 & _ & _).
  exists sp, s1. split; [done|]. split; [done|].
  split; [by rewrite Hl1, Hlist|].
  split.
  { unfold retyping_df. fold key. rewrite Hprep. simpl. by rewrite Happ. }
  unfold add_filter, bind at 1, gets at 1. fold key.
  unfold bind at 1. rewrite Hprep.
  unfold bind at 1, gets at 1. rewrite Hlist.
  by rewrite bool_decide_eq_true_2.
Qed.

(** When every cast of the pass goes through, the add returns with the
    list of its kind re-cast. *)
Lemma add_filter_succeeds s col op v :
  let key := filter_type (inputs s) in
  let f := prepared_clause s col op v in
  let l := session_list key s in
  let d := retyping_df s col op v in
  f ∉ l →
  Forall (castable d col) (l ++ [f]) →
  Forall (canonical d col) (l ++ [f]) →
  ∃ s', add_filter col op (Some v) s = Ok tt s'
        ∧ session_list key s' = retyped d col <$> (l ++ [f]).
Proof.
  intros key f l d Hnew Hcast Hcan.
  destruct (add_filter_enters s col op v Hnew) as (sp & s1 & _ & Happ & Hl1 & Hd & ->).
  fold key f l d in Happ, Hl1, Hd |- *.
  unfold try_except, bind at 1. rewrite Happ.
  unfold retype_filters, bind at 1, gets at 1. rewrite Hl1.
  rewrite (retype_loop_spec key col d (l ++ [f]) Hcast Hcan); [| done | done |].
  - eexists. split; [done|]. apply session_list_set.
  - by rewrite take_0, drop_0.
Qed.

End AddFilterOutcome.

Section AddFilterClaims.
Context `{B : Backend}.

(** C1 (amended).  A filter addition whose casts all go through re-casts the
    stored value of every clause on the added clause's column in the list
    the filter was added to, the new clause included; the lists of the other
    two kinds are left as they were. *)
Theorem add_filter_retypes_own_list s col op v :
  prepared_clause s col op v ∉ session_list (filter_type (inputs s)) s →
  Forall (castable (retyping_df s col op v) col)
    (session_list (filter_type (inputs s)) s ++ [prepared_clause s col op v]) →
  Forall (canonical (retyping_df s col op v) col)
    (session_list (filter_type (inputs s)) s ++ [prepared_clause s col op v]) →
  ∃ s', add_filter col op (Some v) s = Ok tt s'
        ∧ session_list (filter_type (inputs s)) s'
          = retyped (retyping_df s col op v) col
              <$> (session_list (filter_type (inputs s)) s ++ [prepared_clause s col op v])
        ∧ ∀ k, k ≠ filter_type (inputs s) → session_list k s' = session_list k s.
Proof.
  intros Hnew Hcast Hcan.
  destruct (add_filter_succeeds s col op v Hnew Hcast Hcan) as (s' & Hrun & Hl).
  exists s'. split; [done|]. split; [done|].
  intros k Hk. pose proof (add_filter_other_lists col op (Some v) s k Hk) as Hother.
  by rewrite Hrun in Hother.
Qed.

(** C2 (amended).  When the retyping pass fails on a clause of the column
    before it has changed any stored value, the add is undone: the three
    lists are what they were, the configuration reads the list of that kind
    as it was, the failure is on the page and the plot is cleared. *)
Theorem add_filter_rollback s col op v pre c rest e :
  prepared_clause s col op v ∉ session_list (filter_type (inputs s)) s →
  session_list (filter_type (inputs s)) s ++ [prepared_clause s col op v]
    = pre ++ c :: rest →
  Forall (settled (retyping_df s col op v) col) pre →
  uncastable (retyping_df s col op v) col c e →
  ∃ s', add_filter col op (Some v) s = Ok tt s'
        ∧ same_filters s s'
        ∧ config_filters (filter_type (inputs s)) s'
          = session_list (filter_type (inputs s)) s
        ∧ StException e ∈ ui s'
        ∧ plot (post s') = None.
Proof.
  intros Hnew Hsplit Hpre Hc.
  destruct (add_filter_enters s col op v Hnew) as (sp & s1 & Hprep & Happ & Hl1 & Hd & Hrun).
  set (key := filter_type (inputs s)) in *.
  set (f := prepared_clause s col op v) in *.
  set (l := session_list key s) in *.
  assert (Hloop : retype_filters key col s1 = Raise e s1).
  { unfold retype_filters, bind, gets.
    apply (retype_loop_fails key col (retyping_df s col op v) pre c rest e Hpre Hc);
      [done|by rewrite Hl1| lia |].
    rewrite Hl1, Hsplit, length_app. simpl. lia. }
  assert (Hbody : (append_filter key col f ;;; retype_filters key col) sp = Raise e s1).
  { unfold bind. by rewrite Happ, Hloop. }
  set (s2 := with_post (set_plot None) (with_ui (λ u, u ++ [StException e]) s1)).
  assert (Hrem : remove_filter key (length l) s2 = Ok tt (set_session_list key l s2)).
  { unfold remove_filter, bind, gets.
    assert (session_list key s2 = l ++ [f]) as -> by (by rewrite <-Hl1; destruct key).
    rewrite list_lookup_middle by done.
    by rewrite py_remove_snoc. }
  set (s3 := set_session_list key l s2) in *.
  destruct (returned_Ok _ (update_filter_total key s3)) as [[] Hup].
  destruct (update_filter_reports key s3) as (Hui & Hplot & Href).
  exists (final (update_filter key s3)).
  split.
  { rewrite Hrun. unfold try_except. rewrite Hbody.
    unfold bind at 1, st_exception at 1, modify at 1.
    unfold bind at 1, clear_plot at 1, modify at 1.
    fold s2. unfold bind at 1. rewrite Hrem. done. }
  assert (Hlists : ∀ k, session_list k (final (update_filter key s3)) = session_list k s).
  { intros k. rewrite update_filter_keeps_lists.
    destruct (decide (k = key)) as [->|Hk]; [apply session_list_set|].
    unfold s3. rewrite session_list_set_ne by done.
    transitivity (session_list k s1); [by destruct k|].
    pose proof (add_filter_other_lists col op (Some v) s k Hk) as Hother.
    destruct (append_filter_spec key col f sp) as (s1' & Happ' & _ & Hk1 & _).
    rewrite Happ in Happ'. injection Happ' as <-.
    rewrite Hk1 by done.
    destruct (prepare_filter_spec col op v s) as (sp' & Hprep' & Hsp).
    fold key in Hprep'. rewrite Hprep in Hprep'. injection Hprep' as <-.
    destruct Hsp as [->|(e' & _ & ->)]; [done|]. by destruct s, k. }
  split; [split; [|split]; [apply (Hlists And)|apply (Hlists Or)|apply (Hlists Series)]|].
  split.
  { unfold config_filters. rewrite Href. simpl. apply Hlists. }
  split.
  - eapply elem_of_prefix; [|done].
    assert (ui s3 = ui s1 ++ [StException e]) as -> by (by destruct key).
    apply elem_of_app. right. by left.
  - apply Hplot. by destruct key.
Qed.

(** C5 (amended).  For every addition of a clause that is not yet in the
    list of its kind, in which every cast of the retyping pass goes through
    and casting the string of a cast value gives that string again, the add
    returns and the last clause of the list holds a string cast twice.  The
    author's value is cast through the declared column type and turned into
    a string; if that cast fails the exception is reported on the page,
    where it stays, and the value is taken as given.  The clause looked up
    and appended holds that string, and no operator in a series.  The
    retyping pass of the same add then casts the string through the native
    values of the column, and the string of this second cast is what the
    list ends up holding. *)
Theorem add_filter_stored_value s col op v :
  prepared_clause s col op v ∉ session_list (filter_type (inputs s)) s →
  Forall (castable (retyping_df s col op v) col)
    (session_list (filter_type (inputs s)) s ++ [prepared_clause s col op v]) →
  Forall (canonical (retyping_df s col op v) col)
    (session_list (filter_type (inputs s)) s ++ [prepared_clause s col op v]) →
  ∃ s' sp w,
    prepare_filter (filter_type (inputs s)) col op v s
      = Ok (prepared_clause s col op v) sp
    ∧ match val_as_dtype v (dtype_lookup !! filter_column_type (inputs s)) with
      | inr w0 => prepared_value s v = native_str w0 ∧ sp = s
      | inl e => prepared_value s v = native_str v
                 ∧ ui sp = ui s ++ [StException e]
                 ∧ StException e ∈ ui s'
      end
    ∧ ui sp `prefix_of` ui s'
    ∧ add_filter col op (Some v) s = Ok tt s'
    ∧ val_as_col_dtype (retyping_df s col op v) (prepared_value s v) col = inr w
    ∧ last (session_list (filter_type (inputs s)) s')
      = Some (match filter_type (inputs s) with
              | Series => [col; native_str w]
              | _ => [col; op; native_str w]
              end).
Proof.
  intros Hnew Hcast Hcan.
  destruct (add_filter_enters s col op v Hnew) as (sp & s1 & Hprep & Happ & Hl1 & Hd & Hrun).
  set (key := filter_type (inputs s)) in *.
  set (f := prepared_clause s col op v) in *.
  set (l := session_list key s) in *.
  set (d := retyping_df s col op v) in *.
  assert (Hloop : retype_filters key col s1
                  = Ok tt (set_session_list key (retyped d col <$> (l ++ [f])) s1)).
  { unfold retype_filters, bind at 1, gets at 1. rewrite Hl1.
    apply (retype_loop_spec key col d (l ++ [f]) Hcast Hcan); [done|done|].
    by rewrite take_0, drop_0. }
  set (s' := set_session_list key (retyped d col <$> (l ++ [f])) s1) in *.
  assert (Hadd : add_filter col op (Some v) s = Ok tt s').
  { rewrite Hrun. unfold try_except, bind at 1. by rewrite Happ, Hloop. }
  assert (Hpage : ui sp `prefix_of` ui s').
  { assert (ui s' = ui s1) as -> by (by destruct key).
    pose proof (append_filter_page key col f sp) as Hp. by rewrite Happ in Hp. }
  pose proof (prepare_filter_run col op v s) as Hprep'.
  fold key f in Hprep'. rewrite Hprep in Hprep'. injection Hprep' as Hsp.
  apply Forall_app in Hcast as [_ Hf]. apply Forall_singleton in Hf as [_ Hf].
  assert (Hon : on_column col f).
  { unfold f, prepared_clause. by destruct (filter_type (inputs s)). }
  destruct (Hf Hon) as [c' Hc'].
  pose proof (retyped_on _ _ _ _ Hon Hc') as Hre.
  apply recast_Some in Hc' as (x & w & Hlast & Hw & ->).
  assert (x = prepared_value s v) as ->.
  { unfold f, prepared_clause in Hlast. destruct (filter_type (inputs s)); by injection Hlast. }
  exists s', sp, w. split; [done|]. split.
  { unfold prepared_value.
    destruct (val_as_dtype v _) as [e|w0]; [|by split].
    split; [done|]. assert (Hu : ui sp = ui s ++ [StException e]) by (by rewrite Hsp).
    split; [done|]. eapply elem_of_prefix; [|exact Hpage].
    rewrite Hu. apply elem_of_app. right. by left. }
  split; [done|]. split; [done|]. split; [done|].
  assert (session_list key s' = retyped d col <$> (l ++ [f])) as ->
    by apply session_list_set.
  rewrite fmap_app, fmap_cons, fmap_nil, last_snoc, Hre.
  unfold f, prepared_clause, key. by destruct (filter_type (inputs s)).
Qed.

End AddFilterClaims.

Section Axes.
Context `{B : Backend}.

Lemma final_bind_keeps {A C T} (f : SessionState → T) (m : M SessionState A)
    (k : A → M SessionState C) s :
  (∀ a, keeps f (k a)) → f (final (bind m k s)) = f (final (m s)).
Proof.
  intros Hk. unfold bind. destruct (m s) as [a s'|e s']; simpl; [apply Hk|done].
Qed.

Lemma returned_bind_total {A C} (m : M SessionState A) (k : A → M SessionState C) s :
  (∀ a, total (k a)) → returned (bind m k s) ↔ returned (m s).
Proof.
  intros Hk. unfold bind. destruct (m s) as [a s'|e s']; simpl; [|done].
  split; [done|]. intros _. apply Hk.
Qed.

Lemma series_index_cases sel s0 :
  (∃ idx, series_index sel s0 = Ok idx s0) ∨ (∃ e, series_index sel s0 = Raise e s0).
Proof.
  unfold series_index. destruct sel as [[|x l]|]; [left; by eexists| |left; by eexists].
  unfold bind, gets. destruct (py_index _ _); [left|right]; by eexists.
Qed.

Lemma series_index_selectable s s0 :
  series_selectable s →
  series_filters (config s0) = series_filters (config s) →
  ∃ idx, series_index (y_axis_scaling_series (inputs s)) s0 = Ok idx s0.
Proof.
  unfold series_selectable, series_index. intros Hsel Hsf.
  destruct (y_axis_scaling_series (inputs s)) as [[|x l]|]; [by eexists| |by eexists].
  unfold bind, gets. rewrite Hsf.
  destruct (py_index_elem _ _ Hsel) as [i ->]. by eexists.
Qed.

(** "update units": the document of each axis gets one alternative. *)
Lemma update_units_spec i s :
  ∃ s', update_units i s = Ok tt s'
        ∧ x_axis (config s') !! "units"
          = Some (if negb (truthy (x_axis_units_custom i)) && truthy (x_axis_units_column i)
                  then units_from_column (x_axis_units_column i)
                  else units_custom (x_axis_units_custom i))
        ∧ y_axis (config s') !! "units"
          = Some (if negb (truthy (y_axis_units_custom i)) && truthy (y_axis_units_column i)
                  then units_from_column (y_axis_units_column i)
                  else units_custom (y_axis_units_custom i))
        ∧ series_filters (config s') = series_filters (config s).
Proof.
  unfold update_units, set_x_item, set_y_item, set_type.
  destruct (negb (truthy (x_axis_units_custom i)) && truthy (x_axis_units_column i));
  destruct (negb (truthy (y_axis_units_custom i)) && truthy (y_axis_units_column i));
  cbv beta iota delta [bind modify ret]; eexists; (split; [done|]); simpl;
  by rewrite !lookup_insert_eq.
Qed.

Lemma update_scaling_keeps_units i : keeps units_of (update_scaling i).
Proof.
  unfold update_scaling, set_y_item, set_type, series_index.
  repeat first
    [ apply keeps_modify; intros []; unfold units_of; simpl;
      by rewrite ?lookup_insert_ne
    | progress frame ].
Qed.

Lemma tail_keeps_axes :
  keeps (λ s, (x_axis (config s), y_axis (config s))) (parse_scaling ;;; update_types).
Proof. unfold parse_scaling. frame. Qed.

Lemma tail_total : total (parse_scaling ;;; update_types).
Proof. unfold parse_scaling. frame. Qed.

(** "update scaling": the three ways it can end. *)
Lemma update_scaling_spec i s :
  let r := update_scaling i s in
  let b := negb (truthy (y_axis_custom_scaling_val i)) && truthy (y_axis_scaling_column i) in
  (b = false →
     returned r ∧
     y_axis (config (final r)) !! "scaling"
     = Some (PDict {[ "custom" := if truthy (y_axis_custom_scaling_val i)
                                  then pstr_opt (y_axis_custom_scaling_val i)
                                  else PNone ]}))
  ∧ (b = true →
     (returned r ∧ ∃ idx s0,
        series_index (y_axis_scaling_series i) s0 = Ok idx s0
        ∧ series_filters (config s0) = series_filters (config s)
        ∧ y_axis (config (final r)) !! "scaling"
          = Some (PDict {[ "column" :=
                     PDict {[ "name" := pstr_opt (y_axis_scaling_column i);
                              "series" := idx;
                              "x_value" := PStr (str_of_selection (y_axis_scaling_x_value i)) ]} ]}))
     ∨ (¬ returned r ∧ ∃ e s0,
        series_index (y_axis_scaling_series i) s0 = Raise e s0
        ∧ series_filters (config s0) = series_filters (config s)
        ∧ y_axis (config (final r)) !! "scaling" = Some (PDict {[ "custom" := PNone ]}))).
Proof.
  intros r b. subst r b.
  destruct (negb (truthy (y_axis_custom_scaling_val i)) && truthy (y_axis_scaling_column i))
    eqn:Hb;
    cbv beta iota zeta delta [update_scaling bind modify set_y_item set_type ret];
    rewrite !Hb.
  - split; [done|]. intros _.
    apply andb_true_iff in Hb as [Hc _]. apply negb_true_iff in Hc. rewrite !Hc.
    match goal with |- context [series_index ?a ?s0] =>
      destruct (series_index_cases a s0) as [[idx Hidx]|[e He]] end.
    + left. rewrite !Hidx. split; [done|].
      eexists _, _. split; [exact Hidx|]. split; [done|].
      simpl. by rewrite lookup_insert_eq.
    + right. rewrite !He. split; [by intros []|].
      eexists _, _. split; [exact He|]. split; [done|].
      simpl. by rewrite lookup_insert_eq.
  - split; [|done]. intros _. split; [done|].
    simpl. by rewrite lookup_insert_eq.
Qed.

(** [update_axes] as the scaling block and the normalisation run after the
    columns, their types and the units are set. *)
Lemma update_axes_run s :
  ∃ s5, update_axes s
        = (update_scaling (inputs s) ;;; parse_scaling ;;; update_types) s5
      ∧ x_axis (config s5) !! "units"
        = Some (if negb (truthy (x_axis_units_custom (inputs s)))
                   && truthy (x_axis_units_column (inputs s))
                then units_from_column (x_axis_units_column (inputs s))
                else units_custom (x_axis_units_custom (inputs s)))
      ∧ y_axis (config s5) !! "units"
        = Some (if negb (truthy (y_axis_units_custom (inputs s)))
                   && truthy (y_axis_units_column (inputs s))
                then units_from_column (y_axis_units_column (inputs s))
                else units_custom (y_axis_units_custom (inputs s)))
      ∧ series_filters (config s5) = series_filters (config s).
Proof.
  unfold update_axes, set_x_item, set_y_item, set_type.
  unfold bind at 1, gets at 1.
  do 4 (unfold bind at 1, modify at 1).
  unfold bind at 1.
  match goal with |- context [update_units ?i ?s0] =>
    destruct (update_units_spec i s0) as (s5 & Hrun & Hx & Hy & Hsf) end.
  exists s5. rewrite Hrun. done.
Qed.

(** Where [update_axes] ends, read off the scaling block. *)
Lemma update_axes_final s :
  ∃ s5,
    let r := update_scaling (inputs s) s5 in
    (returned (update_axes s) ↔ returned r)
    ∧ x_axis (config (final (update_axes s))) !! "units"
      = Some (if negb (truthy (x_axis_units_custom (inputs s)))
                 && truthy (x_axis_units_column (inputs s))
              then units_from_column (x_axis_units_column (inputs s))
              else units_custom (x_axis_units_custom (inputs s)))
    ∧ y_axis (config (final (update_axes s))) !! "units"
      = Some (if negb (truthy (y_axis_units_custom (inputs s)))
                 && truthy (y_axis_units_column (inputs s))
              then units_from_column (y_axis_units_column (inputs s))
              else units_custom (y_axis_units_custom (inputs s)))
    ∧ y_axis (config (final (update_axes s))) = y_axis (config (final r))
    ∧ series_filters (config s5) = series_filters (config s).
Proof.
  destruct (update_axes_run s) as (s5 & -> & Hx & Hy & Hsf).
  exists s5. intros r.
  pose proof (final_bind_keeps (λ s, (x_axis (config s), y_axis (config s)))
                (update_scaling (inputs s)) (λ _, parse_scaling ;;; update_types) s5
                (λ _, tail_keeps_axes)) as Hax.
  simpl in Hax. injection Hax as Hax Hay.
  pose proof (update_scaling_keeps_units (inputs s) s5) as Hu.
  unfold units_of in Hu. injection Hu as Hux Huy. fold r in Hux, Huy, Hax, Hay.
  split; [apply returned_bind_total; intros _; apply tail_total|].
  rewrite Hax, Hay, Hux, Huy. done.
Qed.

End Axes.

Section AxesClaims.
Context `{B : Backend}.

Lemma exclusive_custom v : exclusive (Some (PDict {[ "custom" := v ]})).
Proof. unfold exclusive, get_dict. intros [_ [x Hx]]. by simplify_map_eq. Qed.

Lemma exclusive_column v : exclusive (Some (PDict {[ "column" := v ]})).
Proof. unfold exclusive, get_dict. intros [[x Hx] _]. by simplify_map_eq. Qed.

Lemma exclusive_units (b : bool) col cus :
  exclusive (Some (if b then units_from_column col else units_custom cus)).
Proof. destruct b; [apply exclusive_column|apply exclusive_custom]. Qed.

(** C3.  After [update_axes], whether it returned or raised, the units of
    either axis and the scaling of the y axis never hold both [custom] and
    [column]: with a custom value given the document holds [custom] alone
    and any column selection is dropped; with no custom value and a column
    selected it holds [column] alone. *)
Theorem update_axes_units_scaling_exclusive s :
  exclusive (x_axis (config (final (update_axes s))) !! "units")
  ∧ exclusive (y_axis (config (final (update_axes s))) !! "units")
  ∧ exclusive (y_axis (config (final (update_axes s))) !! "scaling")
  ∧ (truthy (x_axis_units_custom (inputs s)) = true →
     x_axis (config (final (update_axes s))) !! "units"
     = Some (PDict {[ "custom" := pstr_opt (x_axis_units_custom (inputs s)) ]}))
  ∧ (truthy (x_axis_units_custom (inputs s)) = false →
     truthy (x_axis_units_column (inputs s)) = true →
     x_axis (config (final (update_axes s))) !! "units"
     = Some (PDict {[ "column" := pstr_opt (x_axis_units_column (inputs s)) ]}))
  ∧ (truthy (y_axis_units_custom (inputs s)) = true →
     y_axis (config (final (update_axes s))) !! "units"
     = Some (PDict {[ "custom" := pstr_opt (y_axis_units_custom (inputs s)) ]}))
  ∧ (truthy (y_axis_units_custom (inputs s)) = false →
     truthy (y_axis_units_column (inputs s)) = true →
     y_axis (config (final (update_axes s))) !! "units"
     = Some (PDict {[ "column" := pstr_opt (y_axis_units_column (inputs s)) ]}))
  ∧ (truthy (y_axis_custom_scaling_val (inputs s)) = true →
     y_axis (config (final (update_axes s))) !! "scaling"
     = Some (PDict {[ "custom" := pstr_opt (y_axis_custom_scaling_val (inputs s)) ]}))
  ∧ (truthy (y_axis_custom_scaling_val (inputs s)) = false →
     truthy (y_axis_scaling_column (inputs s)) = true →
     returned (update_axes s) →
     get_dict (y_axis (config (final (update_axes s))) !! "scaling") !! "custom" = None
     ∧ is_Some (get_dict (y_axis (config (final (update_axes s))) !! "scaling") !! "column")).
Proof.
  destruct (update_axes_final s) as (s5 & Hret & Hx & Hy & Hs & _).
  destruct (update_scaling_spec (inputs s) s5) as [Hoff Hon].
  rewrite Hx, Hy, Hs.
  split; [apply exclusive_units|]. split; [apply exclusive_units|].
  split.
  { destruct (negb _ && truthy (y_axis_scaling_column _)).
    - destruct (Hon eq_refl) as [(_ & idx & s0 & _ & _ & ->)|(_ & e & s0 & _ & _ & ->)];
        [apply exclusive_column|apply exclusive_custom].
    - destruct (Hoff eq_refl) as [_ ->]. apply exclusive_custom. }
  split; [by intros ->|]. split; [by intros -> ->|].
  split; [by intros ->|]. split; [by intros -> ->|].
  split.
  - intros Hc. rewrite Hc in Hoff. by destruct (Hoff eq_refl) as [_ ->].
  - intros Hc Hl Hr. rewrite Hc, Hl in Hon.
    destruct (Hon eq_refl) as [(_ & idx & s0 & _ & _ & ->)|(Hn & _)].
    + unfold get_dict. by simplify_map_eq.
    + destruct Hn. by apply Hret.
Qed.

(** C9.  An axis update that selects a column-based scaling (no custom
    value, a scaling column, a series selection that can be indexed) returns
    and stores under [x_value] the string [str(y_scaling_x)], which is the
    string ["None"] when no x-axis scaling value is selected. *)
Theorem update_axes_x_value_string s :
  truthy (y_axis_custom_scaling_val (inputs s)) = false →
  truthy (y_axis_scaling_column (inputs s)) = true →
  series_selectable s →
  ∃ s', update_axes s = Ok tt s'
        ∧ scaling_column_spec (y_axis (config s')) !! "x_value"
          = Some (PStr (str_of_selection (y_axis_scaling_x_value (inputs s))))
        ∧ (y_axis_scaling_x_value (inputs s) = None →
           scaling_column_spec (y_axis (config s')) !! "x_value" = Some (PStr "None")).
Proof.
  intros Hc Hl Hsel.
  destruct (update_axes_final s) as (s5 & Hret & _ & _ & Hs & Hsf).
  destruct (update_scaling_spec (inputs s) s5) as [_ Hon].
  rewrite Hc, Hl in Hon.
  destruct (Hon eq_refl) as [(Hr & idx & s0 & _ & _ & Hsc)|(_ & e & s0 & He & Hsf0 & _)].
  - apply Hret in Hr. destruct (returned_Ok _ Hr) as [[] Hrun].
    exists (final (update_axes s)). split; [done|].
    unfold scaling_column_spec. rewrite Hs, Hsc. unfold get_dict.
    split; [by simplify_map_eq|]. intros ->. by simplify_map_eq.
  - destruct (series_index_selectable s s0 Hsel) as [idx Hidx]; [congruence|].
    congruence.
Qed.

Lemma remove_dups_length_le {A} `{EqDecision A} (l : list A) :
  length (remove_dups l) ≤ length l.
Proof. induction l as [|x l IH]; simpl; [done|]. case_decide; simpl; lia. Qed.

(** Dropping duplicates shortens a list unless it has none. *)
Lemma remove_dups_length_NoDup {A} `{EqDecision A} (l : list A) :
  length (remove_dups l) = length l → NoDup l.
Proof.
  induction l as [|x l IH]; simpl; [constructor|].
  pose proof (remove_dups_length_le l) as Hle.
  case_decide as Hx; simpl; [lia|]. intros [= Hlen].
  constructor; [done|by apply IH].
Qed.

(** C10.  An extra-column addition leaves a duplicate-free [extra_columns]
    duplicate-free: the column is appended only if it is not there yet.  A
    column that is already a plot column is appended all the same, with a
    warning on the page. *)
Theorem add_extra_column_no_duplicate s :
  NoDup (extra_columns (config s)) →
  ∃ s', add_extra_column s = Ok tt s'
        ∧ NoDup (extra_columns (config s'))
        ∧ extra_columns (config s')
          = (if bool_decide (extra_col (inputs s) ∈ extra_columns (config s))
             then extra_columns (config s)
             else extra_columns (config s) ++ [extra_col (inputs s)])
        ∧ (extra_col (inputs s) ∈ plot_columns (config s) →
           extra_col (inputs s) ∉ extra_columns (config s) →
           extra_col (inputs s) ∈ extra_columns (config s')
           ∧ StWarning "Currently selected extra column is already present in the DataFrame mask."
               ∈ ui s').
Proof.
  intros Hnd. unfold add_extra_column, st_warning, parse_columns.
  cbv beta iota zeta delta [bind gets modify ret].
  destruct (bool_decide (length _ ≠ length _)) eqn:Hwarn; simpl;
    (destruct (decide (extra_col (inputs s) ∈ extra_columns (config s))) as [Hin|Hnin];
     [rewrite (bool_decide_eq_false_2 (_ ∉ _)) by (by intros ?);
      rewrite (bool_decide_eq_true_2 (_ ∈ _)) by done
     |rewrite (bool_decide_eq_true_2 (_ ∉ _)) by done;
      rewrite (bool_decide_eq_false_2 (_ ∈ _)) by done]);
    eexists; (split; [done|]); simpl.
  - split; [done|]. split; [done|]. by intros _ ?.
  - split; [apply NoDup_app; split; [done|]; split; [|apply NoDup_singleton];
            by intros x Hx ->%list_elem_of_singleton|].
    split; [done|]. intros _ _. split; [apply elem_of_app; right; by left|].
    apply elem_of_app. right. by left.
  - split; [done|]. split; [done|]. by intros _ ?.
  - split; [apply NoDup_app; split; [done|]; split; [|apply NoDup_singleton];
            by intros x Hx ->%list_elem_of_singleton|].
    split; [done|]. intros Hplot _. exfalso.
    apply bool_decide_eq_false in Hwarn. apply dec_stable in Hwarn.
    symmetry in Hwarn. apply remove_dups_length_NoDup in Hwarn.
    apply NoDup_app in Hwarn as (_ & Hdisj & _).
    apply (Hdisj _ Hplot). apply elem_of_app. right. by left.
Qed.

End AxesClaims.

Section Pipeline.
Context `{B : Backend}.

Lemma all_true_conj n :
  zip_with andb (replicate n true) (zip_with andb (replicate n true) (replicate n true))
  = replicate n true.
Proof. induction n as [|n IH]; simpl; [done|]. by rewrite IH. Qed.

(** C7.  On every dataset a filter set whose three lists are empty evaluates
    to the mask that is true on every row; the empty OR list contributes the
    all-true mask, as the empty AND list does. *)
Theorem evaluate_empty_all_true d :
  evaluate d [] [] [] = inr (replicate (length (df_rows d)) true)
  ∧ disjoin d [] = replicate (length (df_rows d)) true
  ∧ disjoin d [] = conjoin d [].
Proof.
  unfold evaluate, conjoin, disjoin, all_rows. simpl.
  by rewrite all_true_conj.
Qed.

Lemma run_post_processing_keeps {T} (f : SessionState → T) :
  (∀ d s, f (with_post (set_df d) s) = f s) →
  keeps f run_steps → keeps f run_post_processing.
Proof.
  intros Hdf Hk s. unfold run_post_processing. specialize (Hk s).
  destruct (run_steps s); simpl in *; [done|]. by rewrite Hdf.
Qed.

Lemma rerun_keeps_config : keeps config rerun_post_processing.
Proof.
  unfold rerun_post_processing, st_exception, clear_plot.
  repeat first
    [ apply run_post_processing_keeps; [by intros ? [[]]|unfold run_steps]
    | progress frame ].
Qed.

Lemma rerun_keeps_lists k : keeps (session_list k) rerun_post_processing.
Proof.
  unfold rerun_post_processing, st_exception, clear_plot.
  repeat first
    [ apply run_post_processing_keeps; [by intros ? [[]]|unfold run_steps]
    | progress frame ].
Qed.

Lemma rerun_keeps_original : keeps (λ s, original_df (post s)) rerun_post_processing.
Proof.
  unfold rerun_post_processing, st_exception, clear_plot.
  repeat first
    [ apply run_post_processing_keeps; [by intros ? [[]]|unfold run_steps]
    | apply keeps_modify; by intros [[]]
    | apply keeps_on_df; by intros ? [[]]
    | progress frame ].
Qed.

Lemma config_filters_view k s s' :
  config s' = config s → (∀ k, session_list k s' = session_list k s) →
  config_filters k s' = config_filters k s.
Proof.
  intros Hc Hl. unfold config_filters. rewrite Hc.
  destruct (filters_ref k (config s)); simpl; [done|apply Hl].
Qed.

Lemma to_dict_view s s' :
  config s' = config s → (∀ k, session_list k s' = session_list k s) →
  to_dict s' = to_dict s.
Proof.
  intros Hc Hl. unfold to_dict.
  rewrite !(config_filters_view _ s s') by done. by rewrite Hc.
Qed.

(** What a run leaves in [post], read off the original snapshot, the
    configuration and the lists. *)
Lemma rerun_post s :
  post (final (rerun_post_processing s))
  = match read_config (to_dict s) with
    | inl _ => set_plot None (post s)
    | inr _ =>
        let c := config s in
        let failed := set_plot None (set_df (original_df (post s)) (post s)) in
        match apply_df_types (all_columns c) (column_types c) (original_df (post s)) with
        | Raise _ _ => failed
        | Ok _ d' =>
            match evaluate d' (config_filters And s) (config_filters Or s)
                    (config_filters Series s) with
            | inl _ => failed
            | inr m =>
                match resolve_scaling d' m (y_axis c !! "scaling") (series_filters c) with
                | inl _ => failed
                | inr sc => set_results m sc (render (title c) d' m sc)
                              (set_df d' (post s))
                end
            end
        end
    end.
Proof.
  unfold rerun_post_processing, run_post_processing, run_steps, st_exception,
    clear_plot, try_except, bind, gets, modify, lift, on_df, raise, ret.
  destruct (read_config (to_dict s)) as [e|[]]; simpl; [done|].
  destruct (apply_df_types _ _ _) as [[] d'|e d']; simpl; [|done].
  change (config_filters ?k (with_post ?g (with_post ?h s))) with (config_filters k s).
  destruct (evaluate d' _ _ _) as [e|m]; simpl; [done|].
  destruct (resolve_scaling d' m _ _) as [e|sc]; simpl; done.
Qed.

(** C6.  Running post-processing a second time on what the first run left,
    the configuration being the same, leaves the dataframe, the mask, the
    scale and the plot as the first run left them: each run starts from the
    original snapshot, which no run changes. *)
Theorem rerun_post_processing_idempotent s :
  post (final (rerun_post_processing (final (rerun_post_processing s))))
  = post (final (rerun_post_processing s))
  ∧ config (final (rerun_post_processing s)) = config s
  ∧ original_df (post (final (rerun_post_processing s))) = original_df (post s).
Proof.
  pose proof (rerun_keeps_config s) as Hc.
  pose proof (λ k, rerun_keeps_lists k s) as Hl.
  pose proof (rerun_keeps_original s) as Ho. simpl in Ho.
  split; [|done].
  rewrite (rerun_post (final (rerun_post_processing s))).
  rewrite (to_dict_view s _ Hc Hl), !(config_filters_view _ s _ Hc Hl), Hc, Ho.
  rewrite (rerun_post s).
  destruct (read_config (to_dict s)) as [e|[]]; simpl; [done|].
  destruct (apply_df_types _ _ _) as [[] d'|e d']; simpl; [|done].
  destruct (evaluate d' _ _ _) as [e|m]; simpl; [done|].
  destruct (resolve_scaling d' m _ _) as [e|sc]; simpl; done.
Qed.

(** C8 (amended).  When the uploaded document parses but fails validation,
    [update_config] reports the validation error, clears the plot and takes
    as configuration the same document read as a template, so with whatever
    it holds; if that fails too, the second error is reported as well and
    the configuration stays the one before the upload. *)
Theorem update_config_fallback s u d e :
  uploaded_config (inputs s) = Some u →
  load_config u = inr d →
  new_config d false = inl e →
  ∃ s', update_config s = Ok tt s'
        ∧ StException e ∈ ui s'
        ∧ plot (post s') = None
        ∧ match new_config d true with
          | inr c => config s' = c
          | inl e' => config s' = config s ∧ StException e' ∈ ui s'
          end.
Proof.
  intros Hu Hd He.
  unfold update_config, st_exception, clear_plot, try_except, bind, gets, modify,
    lift, raise, ret.
  rewrite Hu, Hd, He. simpl.
  destruct (new_config d true) as [e'|c]; simpl; eexists; (split; [done|]); simpl.
  - split; [apply elem_of_app; left; apply elem_of_app; right; by left|].
    split; [done|]. split; [done|]. apply elem_of_app. right. by left.
  - split; [apply elem_of_app; right; by left|]. done.
Qed.

End Pipeline.

(** ** The properties on concrete sessions *)

(** ** Further properties of the callbacks *)

Section PyRemove.
Context {A : Type} `{EqDecision A}.

Lemma py_remove_Some (x : A) l l' :
  py_remove x l = Some l' → l ≡ₚ x :: l' ∧ ∃ l1 l2, l = l1 ++ x :: l2 ∧ l' = l1 ++ l2.
Proof.
  revert l'. induction l as [|y l IH]; intros l'; simpl; [done|].
  case_decide as Hy.
  - intros [= <-]. subst y. split; [done|]. by exists [], l.
  - destruct (py_remove x l) as [l0|] eqn:Hr; simpl; [|done].
    intros [= <-]. destruct (IH l0 eq_refl) as (Hp & l1 & l2 & -> & ->).
    split.
    + rewrite Hp. apply Permutation_swap.
    + by exists (y :: l1), l2.
Qed.

Lemma py_remove_elem (x : A) l : x ∈ l → is_Some (py_remove x l).
Proof.
  induction 1 as [|y z l Hin IH]; simpl.
  - by rewrite decide_True.
  - case_decide; [done|]. destruct IH as [l' ->]. done.
Qed.

End PyRemove.

Section LoopShape.
Context `{B : Backend}.

Lemma but_last_set_last (c : clause) v : but_last (set_last c v) = but_last c.
Proof.
  unfold but_last, set_last. rewrite length_insert.
  destruct c as [|x c] using rev_ind; [done|].
  rewrite length_app. simpl. rewrite Nat.add_1_r. simpl.
  rewrite insert_app_r_alt by lia. rewrite Nat.sub_diag. simpl.
  by rewrite !take_app_length.
Qed.

Lemma head_set_last (c : clause) v : length c ≠ 1 → head (set_last c v) = head c.
Proof.
  unfold set_last. destruct c as [|x [|y c]]; simpl; [done|done|done].
Qed.

Lemma length_set_last (c : clause) v : length (set_last c v) = length c.
Proof. unfold set_last. apply length_insert. Qed.

Lemma revalued_refl col c : revalued col c c.
Proof. done. Qed.

Lemma revalued_all col l : Forall2 (revalued col) l l.
Proof. induction l; constructor; done. Qed.

Lemma unchanged_shape key col s :
  ∃ L, s = set_session_list key L s ∧ Forall2 (revalued col) (session_list key s) L.
Proof.
  exists (session_list key s). split; [by rewrite set_session_list_id|].
  apply revalued_all.
Qed.

(** Whatever its outcome, the loop writes to [state[key]] alone, and there
    only to the last entry of clauses on the column. *)
Lemma retype_loop_shape key col n :
  ∀ j s, ∃ L,
    final (retype_loop key col n j s) = set_session_list key L s
    ∧ Forall2 (revalued col) (session_list key s) L.
Proof.
  induction n as [|n IH]; intros j s.
  { apply unchanged_shape. }
  pose proof (unchanged_shape key col s) as Hstay.
  simpl. unfold bind at 1, gets at 1.
  destruct (session_list key s !! j) as [f|] eqn:Hj; [|done].
  unfold bind at 1, item0.
  destruct (head f) as [c0|] eqn:Hhead; [|done].
  unfold ret at 1.
  destruct (String.eqb c0 col) eqn:Hc0.
  - apply String.eqb_eq in Hc0 as ->.
    destruct (py_index f (session_list key s)) as [i|] eqn:Hi; [|done].
    apply py_index_Some in Hi as [Hi _].
    rewrite Hi. unfold bind at 1. unfold bind at 1, item_last.
    destruct (last f) as [v|]; [|done]. unfold ret at 1.
    unfold bind at 1, gets at 1. unfold bind at 1.
    destruct (val_as_col_dtype _ v col) as [e|w]; [done|]. simpl.
    unfold modify.
    destruct (IH (S j) (set_session_list key
                          (<[i:=set_last f (native_str w)]> (session_list key s)) s))
      as (L & -> & HL).
    exists L. split; [by rewrite set_session_list_twice|].
    rewrite session_list_set in HL.
    apply Forall2_same_length_lookup. split.
    { apply Forall2_length in HL. by rewrite length_insert in HL. }
    intros k c c' Hc Hc'.
    destruct (decide (k = i)) as [->|Hk].
    + assert (c = f) as -> by congruence.
      assert (Hrel : revalued col (set_last f (native_str w)) c').
      { eapply Forall2_lookup_lr; [exact HL| |exact Hc'].
        apply list_lookup_insert_eq. by eapply lookup_lt_Some. }
      destruct Hrel as (Hb & Hl & Ho & Hh).
      split; [by rewrite Hb, but_last_set_last|].
      split; [by rewrite Hl, length_set_last|].
      split; [by intros []|].
      intros Hn. rewrite Hh by (by rewrite length_set_last).
      by apply head_set_last.
    + eapply Forall2_lookup_lr; [exact HL| |exact Hc'].
      by rewrite list_lookup_insert_ne.
  - unfold bind at 1, ret at 1. apply IH.
Qed.

End LoopShape.

Section AddFilterOutcomes.
Context `{B : Backend}.

Lemma prepared_clause_on_column s col op v :
  head (prepared_clause s col op v) = Some col
  ∧ length (prepared_clause s col op v) ≠ 1.
Proof. unfold prepared_clause. by destruct (filter_type (inputs s)). Qed.

(** The two ways an add of a clause that is not in the list can end: the
    list with the clause appended and values re-cast, or that list with one
    clause equal to the added one taken out again. *)
Lemma add_filter_new_outcome s col op v :
  prepared_clause s col op v ∉ session_list (filter_type (inputs s)) s →
  ∃ s' L,
    add_filter col op (Some v) s = Ok tt s'
    ∧ Forall2 (revalued col)
        (session_list (filter_type (inputs s)) s ++ [prepared_clause s col op v]) L
    ∧ (session_list (filter_type (inputs s)) s' = L
       ∨ ∃ l1 f' l2,
           L = l1 ++ f' :: l2
           ∧ L !! length (session_list (filter_type (inputs s)) s) = Some f'
           ∧ session_list (filter_type (inputs s)) s' = l1 ++ l2).
Proof.
  intros Hnew.
  destruct (add_filter_enters s col op v Hnew) as (sp & s1 & _ & Happ & Hl1 & _ & ->).
  set (key := filter_type (inputs s)) in *.
  set (f := prepared_clause s col op v) in *.
  set (l := session_list key s) in *.
  unfold try_except, bind at 1. rewrite Happ.
  unfold retype_filters, bind at 1, gets at 1.
  destruct (retype_loop_shape key col (length (session_list key s1)) 0 s1)
    as (L & HL & Hrel).
  rewrite Hl1 in Hrel.
  destruct (retype_loop key col (length (session_list key s1)) 0 s1)
    as [[] s2|e s2]; simpl in HL; subst s2.
  { exists (set_session_list key L s1), L. split; [done|]. split; [done|].
    left. apply session_list_set. }
  unfold bind at 1, st_exception at 1, modify at 1.
  unfold bind at 1, clear_plot at 1, modify at 1.
  set (s3 := with_post (set_plot None) _).
  assert (Hs3 : session_list key s3 = L) by (unfold s3; by destruct key).
  assert (Hlen : length L = S (length l)).
  { apply Forall2_length in Hrel. rewrite <-Hrel, length_app. simpl. lia. }
  destruct (lookup_lt_is_Some_2 L (length l)) as [f' Hf']; [lia|].
  destruct (py_remove_elem f' L) as [L' HL']; [by eapply list_elem_of_lookup_2|].
  assert (Hrem : remove_filter key (length l) s3 = Ok tt (set_session_list key L' s3)).
  { unfold remove_filter, bind, gets. by rewrite Hs3, Hf', HL'. }
  unfold bind at 1. rewrite Hrem.
  destruct (returned_Ok _ (update_filter_total key (set_session_list key L' s3)))
    as [[] Hup].
  exists (final (update_filter key (set_session_list key L' s3))), L.
  split; [done|]. split; [done|]. right.
  apply py_remove_Some in HL' as (_ & l1 & l2 & -> & ->).
  exists l1, f', l2. split; [done|]. split; [done|].
  by rewrite update_filter_keeps_lists, session_list_set.
Qed.

Lemma add_filter_refuses s col op v :
  prepared_clause s col op v ∈ session_list (filter_type (inputs s)) s →
  ∃ s', add_filter col op (Some v) s = Ok tt s'
        ∧ last (ui s') = Some (StWarning "Currently selected filter is already present.")
        ∧ (∀ k, session_list k s' = session_list k s)
        ∧ config s' = config s ∧ post s' = post s ∧ inputs s' = inputs s
        ∧ ui s'
          = ui s
            ++ match val_as_dtype v (dtype_lookup !! filter_column_type (inputs s)) with
               | inl e => [StException e]
               | inr _ => []
               end
            ++ [StWarning "Currently selected filter is already present."].
Proof.
  intros Hin.
  pose proof (prepare_filter_run col op v s) as Hprep.
  set (s1 := match val_as_dtype v _ with inr _ => s | inl e => _ end) in Hprep.
  unfold add_filter, bind at 1, gets at 1. unfold bind at 1. rewrite Hprep.
  unfold bind, gets.
  assert (Hlist : session_list (filter_type (inputs s)) s1
                  = session_list (filter_type (inputs s)) s).
  { unfold s1. destruct (val_as_dtype v _); [|done]. by destruct s, (filter_type _). }
  rewrite Hlist, bool_decide_eq_false_2 by (by intros Hn).
  unfold st_warning, modify. eexists; split; [done|].
  unfold s1. destruct (val_as_dtype v _) as [e|w]; simpl; rewrite ?last_snoc;
    (split; [done|]); (split; [by intros []|]);
    (split; [done|]); (split; [done|]); (split; [done|]);
    by rewrite <-?app_assoc.
Qed.

(** A new clause is kept, or the exception the [try] block raised is put on
    the page after what was there, the plot is cleared and a clause is taken
    out again. *)
Lemma add_filter_new_page s col op v :
  prepared_clause s col op v ∉ session_list (filter_type (inputs s)) s →
  ∃ sp s',
    prepare_filter (filter_type (inputs s)) col op v s
      = Ok (prepared_clause s col op v) sp
    ∧ add_filter col op (Some v) s = Ok tt s'
    ∧ ui sp `prefix_of` ui s'
    ∧ (length (session_list (filter_type (inputs s)) s')
         = S (length (session_list (filter_type (inputs s)) s))
       ∨ (length (session_list (filter_type (inputs s)) s')
            = length (session_list (filter_type (inputs s)) s)
          ∧ plot (post s') = None
          ∧ ∃ e u u', ui s' = ui sp ++ u ++ StException e :: u')).
Proof.
  intros Hnew.
  destruct (add_filter_enters s col op v Hnew) as (sp & s1 & Hprep & Happ & Hl1 & _ & ->).
  set (key := filter_type (inputs s)) in *.
  set (f := prepared_clause s col op v) in *.
  set (l := session_list key s) in *.
  pose proof (append_filter_page key col f sp) as Hp1. rewrite Happ in Hp1. simpl in Hp1.
  unfold try_except, bind at 1. rewrite Happ.
  unfold retype_filters, bind at 1, gets at 1.
  destruct (retype_loop_shape key col (length (session_list key s1)) 0 s1)
    as (L & HL & Hrel).
  rewrite Hl1 in Hrel.
  assert (Hlen : length L = S (length l)).
  { apply Forall2_length in Hrel. rewrite <-Hrel, length_app. simpl. lia. }
  destruct (retype_loop key col (length (session_list key s1)) 0 s1)
    as [[] s2|e s2]; simpl in HL; subst s2.
  { exists sp, (set_session_list key L s1). split; [done|]. split; [done|].
    split; [by destruct key|]. left. by rewrite session_list_set. }
  unfold bind at 1, st_exception at 1, modify at 1.
  unfold bind at 1, clear_plot at 1, modify at 1.
  set (s3 := with_post (set_plot None) _).
  assert (Hs3 : session_list key s3 = L) by (unfold s3; by destruct key).
  destruct (lookup_lt_is_Some_2 L (length l)) as [f' Hf']; [lia|].
  destruct (py_remove_elem f' L) as [L' HL']; [by eapply list_elem_of_lookup_2|].
  assert (Hrem : remove_filter key (length l) s3 = Ok tt (set_session_list key L' s3)).
  { unfold remove_filter, bind, gets. by rewrite Hs3, Hf', HL'. }
  unfold bind at 1. rewrite Hrem.
  destruct (returned_Ok _ (update_filter_total key (set_session_list key L' s3)))
    as [[] Hup].
  destruct (update_filter_reports key (set_session_list key L' s3)) as (Hui & Hplot & _).
  assert (Hu3 : ui (set_session_list key L' s3) = ui s1 ++ [StException e])
    by (unfold s3; by destruct key).
  rewrite Hu3 in Hui. destruct Hui as [u' Hui]. destruct Hp1 as [u Hp1].
  exists sp, (final (update_filter key (set_session_list key L' s3))).
  split; [done|]. split; [done|].
  split.
  { rewrite Hui, Hp1, <-!app_assoc. by apply prefix_app_r. }
  right. split.
  { rewrite update_filter_keeps_lists, session_list_set.
    apply py_remove_Some in HL' as [Hperm _].
    apply Permutation_length in Hperm. simpl in Hperm. lia. }
  split.
  { apply Hplot. unfold s3. by destruct key. }
  exists e, u, u'. by rewrite Hui, Hp1, <-!app_assoc.
Qed.

(** X1.  [add_filter] never lets an exception escape, and says on the page
    what became of the add.  With no value it only adds the warning that the
    value is missing.  With a value, a cast that fails is reported right
    after what the page held; a clause that is in the list already adds the
    warning that it is present and changes no list; a new clause is kept,
    the list being one longer, or the exception the [try] block raised is
    added to the page, the plot cleared and the list back at its length. *)
Theorem add_filter_never_raises s col op val :
  ∃ s', add_filter col op val s = Ok tt s'
        ∧ match val with
          | None =>
              s' = with_ui (λ u, u ++ [StWarning "Currently selected filter cannot be added. Missing filter value information."]) s
          | Some v =>
              (∀ e, val_as_dtype v (dtype_lookup !! filter_column_type (inputs s)) = inl e →
                    ∃ u, ui s' = ui s ++ StException e :: u)
              ∧ (prepared_clause s col op v ∈ session_list (filter_type (inputs s)) s →
                 last (ui s') = Some (StWarning "Currently selected filter is already present.")
                 ∧ ∀ k, session_list k s' = session_list k s)
              ∧ (prepared_clause s col op v ∉ session_list (filter_type (inputs s)) s →
                 length (session_list (filter_type (inputs s)) s')
                   = S (length (session_list (filter_type (inputs s)) s))
                 ∨ (length (session_list (filter_type (inputs s)) s')
                      = length (session_list (filter_type (inputs s)) s)
                    ∧ plot (post s') = None
                    ∧ ∃ e u u', ui s' = ui s ++ u ++ StException e :: u'))
          end.
Proof.
  destruct val as [v|]; [|by eexists].
  destruct (decide (prepared_clause s col op v ∈ session_list (filter_type (inputs s)) s))
    as [Hin|Hnew].
  - destruct (add_filter_refuses s col op v Hin) as (s' & Hrun & Hlast & Hl & _ & _ & _ & Hui).
    exists s'. split; [done|]. split; [|split; [done|by intros []]].
    intros e He. rewrite He in Hui. rewrite Hui. by eexists.
  - destruct (add_filter_new_page s col op v Hnew) as (sp & s' & Hprep & Hrun & Hpre & Hend).
    pose proof (prepare_filter_run col op v s) as Hprep'.
    rewrite Hprep in Hprep'. injection Hprep' as Hsp.
    exists s'. split; [done|]. split; [|split; [by intros ?|intros _]].
    + intros e He. rewrite He in Hsp. destruct Hpre as [u Hu].
      exists u. rewrite Hu, Hsp. simpl. by rewrite <-app_assoc.
    + destruct Hend as [Hkept|(Hlen & Hplot & e & u & u' & Hu)]; [by left|].
      right. split; [done|]. split; [done|].
      destruct (val_as_dtype v _) as [e0|w0]; subst sp; simpl in Hu.
      * exists e, ([StException e0] ++ u), u'. by rewrite Hu, <-!app_assoc.
      * by exists e, u, u'.
Qed.

Lemma revalued_but_last col l L :
  Forall2 (revalued col) l L → but_last <$> L = but_last <$> l.
Proof.
  induction 1 as [|c c' l L (Hb & _) _ IH]; [done|]. rewrite !fmap_cons. by rewrite Hb, IH.
Qed.

(** X2.  An add changes no column and no operator in the list of its kind:
    without their last entries, the clauses after the add are those before
    it in the same order with the new clause's at the end, or - when the
    clause was refused or taken out again - those before it up to order. *)
Theorem add_filter_keeps_columns_operators s col op v :
  but_last <$> session_list (filter_type (inputs s))
                 (final (add_filter col op (Some v) s))
    = but_last <$> (session_list (filter_type (inputs s)) s
                    ++ [prepared_clause s col op v])
  ∨ but_last <$> session_list (filter_type (inputs s))
                   (final (add_filter col op (Some v) s))
    ≡ₚ but_last <$> session_list (filter_type (inputs s)) s.
Proof.
  destruct (decide (prepared_clause s col op v ∈ session_list (filter_type (inputs s)) s))
    as [Hin|Hnew].
  { destruct (add_filter_refuses s col op v Hin) as (s' & Hrun & _ & Hl & _).
    right. rewrite Hrun. simpl. by rewrite Hl. }
  destruct (add_filter_new_outcome s col op v Hnew) as (s' & L & Hrun & Hrel & Hend).
  rewrite Hrun. simpl.
  destruct Hend as [->|(l1 & f' & l2 & -> & Hf' & ->)].
  { left. by apply (revalued_but_last col). }
  right.
  pose proof (revalued_but_last col _ _ Hrel) as Hb.
  assert (Hbf : but_last f' = but_last (prepared_clause s col op v)).
  { apply (f_equal (λ x, x !! length (session_list (filter_type (inputs s)) s))) in Hb.
    rewrite !list_lookup_fmap, Hf', list_lookup_middle in Hb by done.
    simpl in Hb. congruence. }
  rewrite !fmap_app, fmap_cons in Hb. simpl in Hb.
  apply (Permutation_cons_inv (a := but_last f')).
  rewrite fmap_app.
  rewrite (Permutation_middle (but_last <$> l1)), Hb, Hbf.
  by rewrite <-Permutation_cons_append.
Qed.

Lemma revalued_filter_others col l L :
  Forall (λ c, length c ≠ 1) l →
  Forall2 (revalued col) l L →
  filter (λ c, head c ≠ Some col) L = filter (λ c, head c ≠ Some col) l.
Proof.
  intros Hwf HL. induction HL as [|c c' l L (_ & _ & Ho & Hh) _ IH]; [done|].
  apply Forall_cons in Hwf as [Hc Hwf].
  rewrite !filter_cons, IH by done.
  destruct (decide (head c ≠ Some col)) as [Hoff|Hon].
  - rewrite (Ho Hoff). by rewrite decide_True.
  - rewrite decide_False; [done|]. rewrite Hh by done. done.
Qed.

(** X3.  An add never changes, removes or reorders a clause on another
    column: among clauses of two or three entries, those of the list of its
    kind whose column is not the added clause's are after the add what they
    were before it, whatever the outcome. *)
Theorem add_filter_keeps_other_columns s col op v :
  Forall (λ c, length c ≠ 1) (session_list (filter_type (inputs s)) s) →
  filter (λ c, head c ≠ Some col)
    (session_list (filter_type (inputs s)) (final (add_filter col op (Some v) s)))
  = filter (λ c, head c ≠ Some col) (session_list (filter_type (inputs s)) s).
Proof.
  intros Hwf.
  destruct (decide (prepared_clause s col op v ∈ session_list (filter_type (inputs s)) s))
    as [Hin|Hnew].
  { destruct (add_filter_refuses s col op v Hin) as (s' & Hrun & _ & Hl & _).
    rewrite Hrun. simpl. by rewrite Hl. }
  destruct (prepared_clause_on_column s col op v) as [Hf Hfl].
  destruct (add_filter_new_outcome s col op v Hnew) as (s' & L & Hrun & Hrel & Hend).
  rewrite Hrun. simpl.
  assert (Hall : filter (λ c, head c ≠ Some col) L
                 = filter (λ c, head c ≠ Some col) (session_list (filter_type (inputs s)) s)).
  { assert (Hwf' : Forall (λ c, length c ≠ 1)
                      (session_list (filter_type (inputs s)) s
                       ++ [prepared_clause s col op v])).
    { apply Forall_app. split; [done|]. by apply Forall_singleton. }
    rewrite (revalued_filter_others col _ L Hwf' Hrel).
    rewrite filter_app, filter_cons, decide_False by (by intros []).
    by rewrite filter_nil, app_nil_r. }
  destruct Hend as [->|(l1 & f' & l2 & -> & Hf' & ->)]; [done|].
  rewrite <-Hall, !filter_app, filter_cons.
  rewrite decide_False; [done|].
  assert (Hrf : revalued col (prepared_clause s col op v) f').
  { eapply Forall2_lookup_lr; [exact Hrel| |exact Hf']. by apply list_lookup_middle. }
  destruct Hrf as (_ & _ & _ & Hh). rewrite Hh by done. by intros [].
Qed.

End AddFilterOutcomes.

Section MoreFrames.
Context `{B : Backend}.

Lemma update_types_keeps_beyond : keeps beyond_filters update_types.
Proof.
  unfold update_types, parse_columns, remove_redundant_types, st_exception, clear_plot.
  repeat first
    [ apply keeps_modify; by intros [[]]
    | apply keeps_on_df; by intros ? [[]]
    | progress frame ].
Qed.

Lemma update_filter_keeps_beyond key : keeps beyond_filters (update_filter key).
Proof.
  unfold update_filter, parse_filters.
  repeat first
    [ apply update_types_keeps_beyond
    | apply keeps_modify; by intros [[]]
    | apply keeps_bind; [|intros ?] ].
Qed.

Lemma retype_loop_keeps_beyond key col n :
  ∀ j, keeps beyond_filters (retype_loop key col n j).
Proof.
  induction n as [|n IH]; intros j; simpl; [apply keeps_ret|].
  unfold item0, item_last.
  repeat first
    [ apply IH
    | apply keeps_modify; intros [[]]; by destruct key
    | progress frame ].
Qed.

(** X4.  Adding a filter, whatever comes of it, leaves the widget values,
    both axis documents, the title, the extra columns and the original
    snapshot of the dataframe as they were. *)
Theorem add_filter_keeps_axes_and_snapshot s col op val :
  inputs (final (add_filter col op val s)) = inputs s
  ∧ x_axis (config (final (add_filter col op val s))) = x_axis (config s)
  ∧ y_axis (config (final (add_filter col op val s))) = y_axis (config s)
  ∧ title (config (final (add_filter col op val s))) = title (config s)
  ∧ extra_columns (config (final (add_filter col op val s))) = extra_columns (config s)
  ∧ original_df (post (final (add_filter col op val s))) = original_df (post s).
Proof.
  assert (Hk : keeps beyond_filters (add_filter col op val)).
  { unfold add_filter, prepare_filter, append_filter, retype_filters, remove_filter,
      set_type, st_warning, st_exception, clear_plot.
    repeat first
      [ apply update_filter_keeps_beyond
      | apply retype_loop_keeps_beyond
      | apply keeps_modify; intros [[]]; by repeat case_match
      | progress frame ]. }
  specialize (Hk s). unfold beyond_filters in Hk.
  injection Hk as -> -> -> -> -> ->. done.
Qed.

End MoreFrames.

Section MoreAxes.
Context `{B : Backend}.

Lemma py_index_None {A} `{EqDecision A} (x : A) l : py_index x l = None → x ∉ l.
Proof.
  induction l as [|y l IH]; simpl; [intros _; apply not_elem_of_nil|].
  case_decide as Hy; [done|].
  destruct (py_index x l); simpl; [done|]. intros _.
  apply not_elem_of_cons. split; [congruence|by apply IH].
Qed.

Lemma series_index_Ok sel s0 idx s1 :
  series_index sel s0 = Ok idx s1 →
  match sel with
  | Some (x :: l) =>
      ∃ i, idx = PInt (Z.of_nat i) ∧ py_index (x :: l) (series_filters (config s0)) = Some i
  | _ => idx = PNone
  end.
Proof.
  unfold series_index. destruct sel as [[|x l]|]; [by intros [= <-]| |by intros [= <-]].
  unfold bind, gets. destruct (py_index _ _) as [i|]; [|done].
  intros [= <- <-]. by exists i.
Qed.

Lemma series_index_Raise sel s0 e s1 :
  series_index sel s0 = Raise e s1 →
  e = "ValueError" ∧ s1 = s0
  ∧ ∃ x l, sel = Some (x :: l) ∧ (x :: l) ∉ series_filters (config s0).
Proof.
  unfold series_index. destruct sel as [[|x l]|]; [done| |done].
  unfold bind, gets. destruct (py_index _ _) as [i|] eqn:Hi; [done|].
  intros [= <- <-]. split; [done|]. split; [done|].
  exists x, l. split; [done|]. by apply py_index_None.
Qed.

(** How "update scaling" ends: it returns, or the index of the selected
    series cannot be taken and it raises [ValueError] with the scaling reset
    to no custom value. *)
Lemma update_scaling_outcome i s :
  (∃ s', update_scaling i s = Ok tt s')
  ∨ ((negb (truthy (y_axis_custom_scaling_val i)) && truthy (y_axis_scaling_column i))
       = true
     ∧ ∃ s' x l,
         update_scaling i s = Raise "ValueError" s'
         ∧ y_axis_scaling_series i = Some (x :: l)
         ∧ ((x :: l) ∉ series_filters (config s))
         ∧ y_axis (config s') !! "scaling" = Some (PDict {[ "custom" := PNone ]})).
Proof.
  destruct (negb (truthy (y_axis_custom_scaling_val i)) && truthy (y_axis_scaling_column i))
    eqn:Hb;
    cbv beta iota zeta delta [update_scaling bind modify set_y_item set_type ret];
    rewrite !Hb; [|left; by eexists].
  apply andb_true_iff in Hb as [Hc _]. apply negb_true_iff in Hc. rewrite !Hc.
  match goal with |- context [series_index ?a ?s0] =>
    destruct (series_index a s0) as [idx s1|e s1] eqn:Hidx end.
  - left. by eexists.
  - right. split; [done|].
    apply series_index_Raise in Hidx as (-> & -> & x & l & Hsel & Hnot).
    eexists _, x, l. split; [done|]. split; [done|]. split; [done|].
    simpl. by rewrite lookup_insert_eq.
Qed.

(** X6.  [update_axes] raises exactly when a column-based scaling is
    selected together with a series that is not among the series filters;
    the exception is then the [ValueError] of [list.index], and the scaling
    is left with no custom value and no column. *)
Theorem update_axes_raises_iff s :
  (returned (update_axes s)
   ↔ (truthy (y_axis_custom_scaling_val (inputs s)) = false →
      truthy (y_axis_scaling_column (inputs s)) = true →
      series_selectable s))
  ∧ (¬ returned (update_axes s) →
     ∃ s', update_axes s = Raise "ValueError" s'
           ∧ y_axis (config s') !! "scaling" = Some (PDict {[ "custom" := PNone ]})).
Proof.
  destruct (update_axes_run s) as (s5 & Hrun & _ & _ & Hsf).
  assert (Hret : returned (update_axes s) ↔ returned (update_scaling (inputs s) s5)).
  { rewrite Hrun. apply returned_bind_total. intros _. apply tail_total. }
  destruct (update_scaling_outcome (inputs s) s5)
    as [[s' Hok]|(Hb & s' & x & l & Hraise & Hsel & Hnot & Hsc)].
  - split.
    + split; [|intros _; apply Hret; by rewrite Hok].
      intros _ Hc Hl. unfold series_selectable.
      destruct (y_axis_scaling_series (inputs s)) as [[|x l]|] eqn:Hsel; [done| |done].
      destruct (update_scaling_spec (inputs s) s5) as [_ Hon].
      rewrite Hc, Hl in Hon.
      destruct (Hon eq_refl) as [(_ & idx & s0 & Hidx & Hsf0 & _)|(Hn & _)].
      * rewrite Hsel in Hidx. apply series_index_Ok in Hidx as (i & _ & Hi).
        apply py_index_Some in Hi as [Hi _].
        rewrite Hsf0, Hsf in Hi. by eapply list_elem_of_lookup_2.
      * destruct Hn. by rewrite Hok.
    + intros Hn. destruct Hn. apply Hret. by rewrite Hok.
  - apply andb_true_iff in Hb as [Hc Hl]. apply negb_true_iff in Hc.
    split.
    + split.
      * intros Hr. apply Hret in Hr. by rewrite Hraise in Hr.
      * intros Hsel'. specialize (Hsel' Hc Hl). unfold series_selectable in Hsel'.
        rewrite Hsel in Hsel'. rewrite Hsf in Hnot. done.
    + intros _. exists s'. rewrite Hrun. unfold bind at 1. rewrite Hraise. done.
Qed.

(** X7.  When a series is selected for a column-based scaling, the index
    [update_axes] stores is the position of the first series filter equal
    to the selection, so the select box of the next run shows that series
    again; with no series selected it stores [None]. *)
Theorem update_axes_series_index s :
  truthy (y_axis_custom_scaling_val (inputs s)) = false →
  truthy (y_axis_scaling_column (inputs s)) = true →
  series_selectable s →
  ∃ s', update_axes s = Ok tt s'
        ∧ scaling_column_spec (y_axis (config s')) !! "name"
          = Some (pstr_opt (y_axis_scaling_column (inputs s)))
        ∧ match y_axis_scaling_series (inputs s) with
          | Some (x :: l) =>
              ∃ i, scaling_column_spec (y_axis (config s')) !! "series"
                   = Some (PInt (Z.of_nat i))
                   ∧ series_filters (config s) !! i = Some (x :: l)
                   ∧ ∀ k, k < i → series_filters (config s) !! k ≠ Some (x :: l)
          | _ => scaling_column_spec (y_axis (config s')) !! "series" = Some PNone
          end.
Proof.
  intros Hc Hl Hsel.
  destruct (update_axes_final s) as (s5 & Hret & _ & _ & Hs & Hsf).
  destruct (update_scaling_spec (inputs s) s5) as [_ Hon].
  rewrite Hc, Hl in Hon.
  destruct (Hon eq_refl) as [(Hr & idx & s0 & Hidx & Hsf0 & Hsc)|(_ & e & s0 & He & Hsf0 & _)].
  - apply Hret in Hr. destruct (returned_Ok _ Hr) as [[] Hrun].
    exists (final (update_axes s)). split; [done|].
    unfold scaling_column_spec. rewrite Hs, Hsc. unfold get_dict.
    split; [by simplify_map_eq|].
    apply series_index_Ok in Hidx.
    destruct (y_axis_scaling_series (inputs s)) as [[|x l]|];
      [subst idx; by simplify_map_eq| |subst idx; by simplify_map_eq].
    destruct Hidx as (i & -> & Hi). exists i.
    split; [by simplify_map_eq|].
    apply py_index_Some in Hi. by rewrite Hsf0, Hsf in Hi.
  - destruct (series_index_selectable s s0 Hsel) as [idx Hidx]; [congruence|].
    congruence.
Qed.

Lemma update_axes_keeps_x k :
  k ≠ "value" → k ≠ "units" →
  keeps (λ s, x_axis (config s) !! k) update_axes.
Proof.
  intros Hv Hu.
  unfold update_axes, update_units, update_scaling, series_index, parse_scaling,
    set_x_item, set_y_item, set_type.
  repeat first
    [ apply keeps_modify; intros [? []]; simpl; by rewrite ?lookup_insert_ne
    | progress frame ].
Qed.

Lemma update_axes_keeps_y k :
  k ≠ "value" → k ≠ "units" → k ≠ "scaling" →
  keeps (λ s, y_axis (config s) !! k) update_axes.
Proof.
  intros Hv Hu Hs.
  unfold update_axes, update_units, update_scaling, series_index, parse_scaling,
    set_x_item, set_y_item, set_type.
  repeat first
    [ apply keeps_modify; intros [? []]; simpl; by rewrite ?lookup_insert_ne
    | progress frame ].
Qed.

Lemma update_axes_keeps_rest :
  keeps (λ s, (inputs s, title (config s), extra_columns (config s),
               st_and s, st_or s, st_series s, original_df (post s)))
    update_axes.
Proof.
  unfold update_axes, update_units, update_scaling, series_index, parse_scaling,
    set_x_item, set_y_item, set_type, update_types, parse_columns,
    remove_redundant_types, st_exception, clear_plot.
  repeat first
    [ apply keeps_modify; by intros [[]]
    | apply keeps_on_df; by intros ? [[]]
    | progress frame ].
Qed.

(** X8.  Whether it returns or raises, [update_axes] writes of the x axis
    only the entries [value] and [units] and of the y axis only [value],
    [units] and [scaling]: every other entry, the sort order of the x axis
    among them, is what it was, and so are the widget values, the title, the
    extra columns, the three lists of the session and the original
    snapshot. *)
Theorem update_axes_keeps_other_entries s :
  (∀ k, k ≠ "value" → k ≠ "units" →
        x_axis (config (final (update_axes s))) !! k = x_axis (config s) !! k)
  ∧ (∀ k, k ≠ "value" → k ≠ "units" → k ≠ "scaling" →
          y_axis (config (final (update_axes s))) !! k = y_axis (config s) !! k)
  ∧ inputs (final (update_axes s)) = inputs s
  ∧ title (config (final (update_axes s))) = title (config s)
  ∧ extra_columns (config (final (update_axes s))) = extra_columns (config s)
  ∧ (∀ k, session_list k (final (update_axes s)) = session_list k s)
  ∧ original_df (post (final (update_axes s))) = original_df (post s).
Proof.
  split; [intros k Hv Hu; apply (update_axes_keeps_x k Hv Hu s)|].
  split; [intros k Hv Hu Hs; apply (update_axes_keeps_y k Hv Hu Hs s)|].
  pose proof (update_axes_keeps_rest s) as Hk. simpl in Hk.
  injection Hk as Hi Ht He Ha Ho Hs Hd.
  split; [done|]. split; [done|]. split; [done|].
  split; [by intros []|done].
Qed.

End MoreAxes.

Section MoreConfig.
Context `{B : Backend}.

(** X9.  An upload that cannot be parsed leaves the configuration and the
    dataframe as they were: the parse error is reported, the plot cleared,
    and the fallback, which has no [config_dict] to read, adds an
    [UnboundLocalError] to the page. *)
Theorem update_config_unparsable s u e :
  uploaded_config (inputs s) = Some u →
  load_config u = inl e →
  ∃ s', update_config s = Ok tt s'
        ∧ ui s' = ui s ++ [StException e; StException "UnboundLocalError"]
        ∧ config s' = config s
        ∧ df (post s') = df (post s)
        ∧ plot (post s') = None.
Proof.
  intros Hu He.
  unfold update_config, st_exception, clear_plot, try_except, bind, gets, modify,
    lift, raise, ret.
  rewrite Hu, He. simpl. eexists. split; [done|]. simpl.
  by rewrite <-app_assoc.
Qed.

(** X10.  [update_config] never raises and never touches the three filter
    lists of the session, the widget values or the original snapshot; with
    no upload it changes nothing; with a document that validates and a
    dataframe that takes its types, the configuration is the validated one
    and nothing is reported. *)
Theorem update_config_outcomes s :
  (∃ s', update_config s = Ok tt s'
         ∧ (∀ k, session_list k s' = session_list k s)
         ∧ inputs s' = inputs s
         ∧ original_df (post s') = original_df (post s))
  ∧ (uploaded_config (inputs s) = None → update_config s = Ok tt s)
  ∧ (∀ u d c d',
       uploaded_config (inputs s) = Some u → load_config u = inr d →
       new_config d false = inr c →
       apply_df_types (all_columns c) (column_types c) (df (post s)) = Ok tt d' →
       config (final (update_config s)) = c
       ∧ df (post (final (update_config s))) = d'
       ∧ ui (final (update_config s)) = ui s
       ∧ plot (post (final (update_config s))) = plot (post s)).
Proof.
  split; [|split].
  - assert (Ht : total update_config).
    { unfold update_config, st_exception, clear_plot.
      intros s0. unfold bind at 1, gets at 1.
      destruct (uploaded_config (inputs s0)); [|done].
      apply total_try. intros e0. frame. }
    assert (Hk : keeps (λ s, (st_and s, st_or s, st_series s, inputs s,
                              original_df (post s))) update_config).
    { unfold update_config, st_exception, clear_plot.
      repeat first
        [ apply keeps_modify; by intros [[]]
        | apply keeps_on_df; by intros ? [[]]
        | progress frame ]. }
    destruct (returned_Ok _ (Ht s)) as [[] Hr].
    exists (final (update_config s)). split; [done|].
    specialize (Hk s). simpl in Hk. injection Hk as Ha Ho Hs Hi Hd.
    split; [by intros []|]. done.
  - intros Hu. unfold update_config, bind, gets. by rewrite Hu.
  - intros u d c d' Hu Hd Hc Ha.
    unfold update_config, st_exception, clear_plot, try_except, bind, gets, modify,
      lift, raise, ret, on_df.
    rewrite Hu, Hd, Hc. simpl. rewrite Ha. done.
Qed.

(** X11.  [rerun_post_processing] never raises.  A configuration that does
    not validate stops it before the dataframe is touched: the error is the
    one report added and the plot is cleared, while the dataframe, the mask
    and the scale stay as they were. *)
Theorem rerun_post_processing_outcomes s :
  (∃ s', rerun_post_processing s = Ok tt s')
  ∧ (∀ e, read_config (to_dict s) = inl e →
       ui (final (rerun_post_processing s)) = ui s ++ [StException e]
       ∧ df (post (final (rerun_post_processing s))) = df (post s)
       ∧ mask (post (final (rerun_post_processing s))) = mask (post s)
       ∧ scale (post (final (rerun_post_processing s))) = scale (post s)
       ∧ plot (post (final (rerun_post_processing s))) = None).
Proof.
  unfold rerun_post_processing, run_post_processing, run_steps, st_exception,
    clear_plot, try_except, bind, gets, modify, lift, on_df, raise, ret.
  destruct (read_config (to_dict s)) as [e|[]]; simpl.
  { split; [by eexists|]. by intros ? [= <-]. }
  destruct (apply_df_types _ _ _) as [[] d'|e d']; simpl.
  2:{ split; [by eexists|]. done. }
  change (config_filters ?k (with_post ?g (with_post ?h s))) with (config_filters k s).
  destruct (evaluate d' _ _ _) as [e|m]; simpl.
  { split; [by eexists|]. done. }
  destruct (resolve_scaling d' m _ _) as [e|sc]; simpl.
  { split; [by eexists|]. done. }
  split; [by eexists|]. done.
Qed.

(** X12.  The validation before a download never raises and never reports
    an error: an invalid configuration gives one warning and clears the
    plot, a valid one changes nothing; configuration, lists and dataframe
    are never touched. *)
Theorem validate_download_config_outcomes describe s :
  config (final (validate_download_config describe s)) = config s
  ∧ df (post (final (validate_download_config describe s))) = df (post s)
  ∧ (∀ k, session_list k (final (validate_download_config describe s))
          = session_list k s)
  ∧ match read_config (to_dict s) with
    | inr _ => validate_download_config describe s = Ok tt s
    | inl e =>
        ∃ s' msg, validate_download_config describe s = Ok tt s'
                  ∧ ui s' = ui s ++ [StWarning msg]
                  ∧ plot (post s') = None
    end.
Proof.
  unfold validate_download_config, st_warning, clear_plot, try_except, bind, gets,
    modify, lift, raise, ret.
  destruct (read_config (to_dict s)) as [e|[]]; simpl.
  - split; [done|]. split; [done|]. split; [by intros []|]. by eexists _, _.
  - split; [done|]. split; [done|]. split; [by intros []|]. done.
Qed.

End MoreConfig.

Section Tables.

(** The two type tables are inverse to each other, and the user types
    they know are the four of the select boxes. *)
Lemma type_tables_inverse (ty dt : string) :
  (dtype_lookup !! ty = Some dt ↔ type_lookup !! dt = Some ty)
  ∧ (is_Some (dtype_lookup !! ty) ↔ ty ∈ column_type_names).
Proof.
  unfold dtype_lookup, type_lookup, column_type_names.
  split; split.
  - intros H. apply lookup_insert_Some in H as [[<- <-]|[_ H]]; [done|].
    apply lookup_insert_Some in H as [[<- <-]|[_ H]]; [done|].
    apply lookup_insert_Some in H as [[<- <-]|[_ H]]; [done|].
    apply lookup_singleton_Some in H as [<- <-]. done.
  - intros H. apply lookup_insert_Some in H as [[<- <-]|[_ H]]; [done|].
    apply lookup_insert_Some in H as [[<- <-]|[_ H]]; [done|].
    apply lookup_insert_Some in H as [[<- <-]|[_ H]]; [done|].
    apply lookup_singleton_Some in H as [<- <-]. done.
  - intros [x H]. apply lookup_insert_Some in H as [[<- <-]|[_ H]]; [set_solver|].
    apply lookup_insert_Some in H as [[<- <-]|[_ H]]; [set_solver|].
    apply lookup_insert_Some in H as [[<- <-]|[_ H]]; [set_solver|].
    apply lookup_singleton_Some in H as [<- <-]. set_solver.
  - intros H. repeat (apply elem_of_cons in H as [->|H]; [by eexists|]).
    by apply elem_of_nil in H.
Qed.

Context `{B : Backend}.

(** X13.  The default of a type select box: for an axis that names a
    column of one of the four native types it is the position of that
    column's user type in the list of the box, so the box shows the type the
    column has; for an axis that names no column it is 0; for a column of
    any other native type the lookup gives [None] and [list.index] raises
    [ValueError]. *)
Theorem default_type_index_shows_column_type d axis :
  (truthy (axis_value axis) = false → default_type_index d axis = inr 0)
  ∧ (∀ name dt,
       axis_value axis = Some name → name ≠ "" → native_dtype d name = Some dt →
       match type_lookup !! dt with
       | Some ty =>
           ∃ i, default_type_index d axis = inr i
                ∧ column_type_names !! i = Some ty
                ∧ dtype_lookup !! ty = Some dt
       | None => default_type_index d axis = inl "ValueError"
       end).
Proof.
  unfold default_type_index. split; [by intros ->|].
  intros name dt Hname Hne Hdt. rewrite Hname.
  unfold truthy. apply String.eqb_neq in Hne. rewrite Hne.
  cbn [negb mbind option_bind]. rewrite Hdt.
  destruct (type_lookup !! dt) as [ty|] eqn:Hty; [|done].
  pose proof (proj2 (proj1 (type_tables_inverse ty dt)) Hty) as Hback.
  assert (Hin : ty ∈ column_type_names).
  { apply (type_tables_inverse ty dt). by eexists. }
  destruct (py_index_elem _ _ Hin) as [i Hi]. rewrite Hi.
  exists i. split; [done|]. split; [|done].
  by apply py_index_Some in Hi as [Hi' _].
Qed.

End Tables.

Section FileName.

Lemma replace_spaces_no_space s a :
  a ∈ list_ascii_of_string (replace_spaces s) → a ≠ " "%char.
Proof.
  induction s as [|b s IH]; simpl; [by intros ?%elem_of_nil|].
  intros [->|Hin]%elem_of_cons; [|by apply IH].
  destruct (Ascii.eqb b " ") eqn:Hb; [done|]. by apply Ascii.eqb_neq in Hb.
Qed.

Lemma list_ascii_app s1 s2 :
  list_ascii_of_string (s1 +:+ s2) = list_ascii_of_string s1 ++ list_ascii_of_string s2.
Proof. induction s1 as [|a s1 IH]; simpl; [done|]. by rewrite IH. Qed.

Lemma string_app_length s1 s2 :
  String.length (s1 +:+ s2) = String.length s1 + String.length s2.
Proof. induction s1 as [|a s1 IH]; simpl; [done|]. by rewrite IH. Qed.

Lemma replace_spaces_length s : String.length (replace_spaces s) = String.length s.
Proof. induction s as [|a s IH]; simpl; [done|]. by rewrite IH. Qed.

Lemma py_lower_length s : String.length (py_lower s) = String.length s.
Proof. induction s as [|a s IH]; simpl; [done|]. by rewrite IH. Qed.

Lemma lower_char_idemp a : lower_char (lower_char a) = lower_char a.
Proof.
  unfold lower_char.
  destruct ((65 <=? nat_of_ascii a) && (nat_of_ascii a <=? 90)) eqn:Hup.
  - apply andb_true_iff in Hup as [H1%Nat.leb_le H2%Nat.leb_le].
    rewrite nat_ascii_embedding by lia.
    rewrite (proj2 (Nat.leb_gt (nat_of_ascii a + 32) 90)) by lia.
    by rewrite andb_false_r.
  - by rewrite Hup.
Qed.

(** X14.  The name of the downloaded file has no space in it, is as long
    as the title plus the twelve characters of its ending, and depends on
    the title only up to case and to spaces against underscores. *)
Theorem config_file_name_no_space title :
  ascii_title title →
  (∀ a, a ∈ list_ascii_of_string (config_file_name title) → a ≠ " "%char)
  ∧ String.length (config_file_name title) = String.length title + 12
  ∧ config_file_name (replace_spaces (py_lower title)) = config_file_name title.
Proof.
  intros _. unfold config_file_name. split; [|split].
  - intros a. rewrite list_ascii_app. intros [Hin|Hin]%elem_of_app.
    + by eapply replace_spaces_no_space.
    + simpl in Hin. repeat (apply elem_of_cons in Hin as [->|Hin]; [done|]).
      by apply elem_of_nil in Hin.
  - rewrite string_app_length, replace_spaces_length, py_lower_length. done.
  - f_equal. induction title as [|a t IH]; simpl; [done|]. rewrite IH. f_equal.
    destruct (Ascii.eqb (lower_char a) " ") eqn:Hsp.
    + reflexivity.
    + rewrite lower_char_idemp, Hsp. done.
Qed.

End FileName.

Section MoreExtraColumns.
Context `{B : Backend}.

Lemma add_extra_column_spec s :
  ∃ s', add_extra_column s = Ok tt s'
        ∧ inputs s' = inputs s
        ∧ extra_columns (config s')
          = (if bool_decide (extra_col (inputs s) ∈ extra_columns (config s))
             then extra_columns (config s)
             else extra_columns (config s) ++ [extra_col (inputs s)])
        ∧ ui s'
          = (if bool_decide (NoDup (plot_columns (config s) ++ extra_columns (config s)
                                    ++ [extra_col (inputs s)]))
             then ui s
             else ui s ++ [StWarning "Currently selected extra column is already present in the DataFrame mask."]).
Proof.
  unfold add_extra_column, st_warning, parse_columns.
  cbv beta iota zeta delta [bind gets modify ret].
  set (shown := plot_columns (config s) ++ extra_columns (config s) ++ [extra_col (inputs s)]).
  assert (Hw : bool_decide (length shown ≠ length (remove_dups shown))
               = negb (bool_decide (NoDup shown))).
  { destruct (decide (NoDup shown)) as [Hnd|Hnd].
    - rewrite (bool_decide_eq_true_2 (NoDup shown)) by done. simpl.
      apply bool_decide_eq_false_2. intros Hne. apply Hne.
      clear -Hnd. induction Hnd as [|x l Hx Hnd IH]; simpl; [done|].
      case_decide; [done|]. simpl. by rewrite <-IH.
    - rewrite (bool_decide_eq_false_2 (NoDup shown)) by done. simpl.
      apply bool_decide_eq_true_2. intros Heq. apply Hnd.
      by apply remove_dups_length_NoDup. }
  rewrite Hw.
  destruct (bool_decide (NoDup shown)); simpl;
    (destruct (decide (extra_col (inputs s) ∈ extra_columns (config s))) as [Hin|Hnin];
     [rewrite (bool_decide_eq_false_2 (_ ∉ _)) by (by intros ?);
      rewrite (bool_decide_eq_true_2 (_ ∈ _)) by done
     |rewrite (bool_decide_eq_true_2 (_ ∉ _)) by done;
      rewrite (bool_decide_eq_false_2 (_ ∈ _)) by done]);
    eexists; (split; [done|]); simpl; done.
Qed.

(** X15.  Adding the same extra column a second time changes nothing but
    the page: the column is in [extra_columns] after the first add, so the
    second leaves the list as it is and always warns. *)
Theorem add_extra_column_twice s :
  extra_col (inputs s) ∈ extra_columns (config (final (add_extra_column s)))
  ∧ extra_columns (config (final (add_extra_column (final (add_extra_column s)))))
    = extra_columns (config (final (add_extra_column s)))
  ∧ ui (final (add_extra_column (final (add_extra_column s))))
    = ui (final (add_extra_column s))
      ++ [StWarning "Currently selected extra column is already present in the DataFrame mask."].
Proof.
  destruct (add_extra_column_spec s) as (s1 & Hrun1 & Hi1 & He1 & _).
  rewrite Hrun1. simpl.
  assert (Hin : extra_col (inputs s) ∈ extra_columns (config s1)).
  { rewrite He1. case_bool_decide as Hd; [done|]. apply elem_of_app. right. by left. }
  split; [done|].
  destruct (add_extra_column_spec s1) as (s2 & Hrun2 & _ & He2 & Hu2).
  rewrite Hrun2. simpl. rewrite Hi1 in He2, Hu2.
  rewrite He2, bool_decide_eq_true_2 by done. split; [done|].
  rewrite Hu2, bool_decide_eq_false_2; [done|].
  intros Hnd. apply NoDup_app in Hnd as (_ & _ & Hnd).
  apply NoDup_app in Hnd as (_ & Hdisj & _).
  apply (Hdisj _ Hin). by left.
Qed.

End MoreExtraColumns.

Section RetypeTwice.
Context `{B : Backend}.

Lemma retyped_settled d col c :
  castable d col c → canonical d col c →
  castable d col (retyped d col c) ∧ canonical d col (retyped d col c)
  ∧ retyped d col (retyped d col c) = retyped d col c.
Proof.
  intros [Hhead Hcast] Hcan. unfold retyped at 1 2 4.
  destruct (decide (head c = Some col)) as [Hon|Hoff].
  - destruct (Hcast Hon) as [c' Hc']. rewrite Hc'. simpl.
    pose proof (Hcan c' Hc') as Hfix.
    split; [|split].
    + split; [|by intros _; eexists].
      apply recast_Some in Hfix as (v & w & Hlast & _).
      destruct c' as [|x c']; [done|]. simpl. by eexists.
    + intros c'' Hc''. congruence.
    + unfold retyped. rewrite (decide_True (P := head c = Some col)) by done.
      rewrite Hc'. simpl. case_decide; [|done]. rewrite Hfix. reflexivity.
  - split; [done|]. split; [done|]. unfold retyped. by rewrite decide_False.
Qed.

(** X16.  The retyping pass is idempotent: on a list whose values cast and
    whose cast strings cast to themselves, a second pass over the list the
    first one left changes nothing. *)
Theorem retype_filters_idempotent key col s :
  Forall (castable (df (post s)) col) (session_list key s) →
  Forall (canonical (df (post s)) col) (session_list key s) →
  ∃ s1, retype_filters key col s = Ok tt s1
        ∧ session_list key s1 = retyped (df (post s)) col <$> session_list key s
        ∧ retype_filters key col s1 = Ok tt s1.
Proof.
  intros Hcast Hcan. unfold retype_filters, bind, gets.
  rewrite (retype_loop_spec key col (df (post s)) (session_list key s) Hcast Hcan);
    [|done|done|by rewrite take_0, drop_0].
  eexists. split; [done|]. rewrite session_list_set. split; [done|].
  set (L := retyped (df (post s)) col <$> session_list key s).
  set (s1 := set_session_list key L s).
  assert (Hd : df (post s1) = df (post s)) by (by destruct key).
  assert (Hall : Forall (λ c, castable (df (post s)) col c ∧ canonical (df (post s)) col c
                              ∧ retyped (df (post s)) col c = c) L).
  { unfold L. apply Forall_fmap. apply Forall_forall. intros c Hc. simpl.
    apply retyped_settled.
    - exact (proj1 (Forall_forall _ _) Hcast c Hc).
    - exact (proj1 (Forall_forall _ _) Hcan c Hc). }
  rewrite (retype_loop_spec key col (df (post s)) L);
    [ |eapply Forall_impl; [exact Hall|]; intros ? (? & ? & ?); assumption
      |eapply Forall_impl; [exact Hall|]; intros ? (? & ? & ?); assumption
      |done|done
      |by unfold s1; rewrite take_0, drop_0, session_list_set].
  f_equal. unfold s1. rewrite set_session_list_twice. f_equal.
  apply list_eq. intros i. rewrite list_lookup_fmap.
  destruct (L !! i) as [c|] eqn:Hc; simpl; [|done].
  by destruct (proj1 (Forall_lookup _ _) Hall i c Hc) as (_ & _ & ->).
Qed.

End RetypeTwice.

Import Sample Examples.

(** An OR list with a clause is a restriction; only the empty one is not. *)
Example evaluate_or_restricts :
  evaluate int_table [] [["a"; "=="; "1"]] [] = inr [true; false]
  ∧ evaluate int_table [["a"; ">"; "0"]] [] [["b"; "y"]] = inr [false; true].
Proof. split; vm_compute; reflexivity. Qed.

(** C3 on a session: custom units on the y axis, scaling by column. *)
Lemma update_axes_units_scaling_exclusive_witness :
  exclusive (y_axis (config (final (update_axes scaling_session))) !! "scaling")
  ∧ y_axis (config (final (update_axes scaling_session))) !! "units"
    = Some (PDict {[ "custom" := PStr "s" ]}).
Proof.
  destruct (update_axes_units_scaling_exclusive scaling_session)
    as (_ & _ & Hs & _ & _ & Hy & _).
  split; [exact Hs|]. apply Hy. reflexivity.
Defined.

(** C4 on a session: the clause [a == 1], typed as int, is in the AND list
    already. *)
Lemma add_filter_duplicate_refused_witness :
  ∃ s', add_filter "a" "==" (Some "1") duplicate_session = Ok tt s'
        ∧ last (ui s') = Some (StWarning "Currently selected filter is already present.")
        ∧ st_and s' = st_and duplicate_session ∧ st_or s' = st_or duplicate_session
        ∧ st_series s' = st_series duplicate_session
        ∧ config s' = config duplicate_session ∧ post s' = post duplicate_session.
Proof.
  apply (add_filter_duplicate_refused duplicate_session "a" "==" "1").
  apply (bool_decide_unpack _). vm_compute. exact I.
Defined.

(** C1 as stated fails: column [a] is declared int and has the AND clause
    [a == 1]; an OR clause on [a] typed as float is added, the column becomes
    float, and the AND clause still holds ["1"] where its re-cast is ["1.0"]. *)
Lemma add_filter_other_lists_not_retyped :
  column_types (config other_kind_session) !! Some "a" = Some "int"
  ∧ filter_column_type (inputs other_kind_session) = "float"
  ∧ ¬ retyped_in_every_list "a" other_kind_session
        (final (add_filter "a" "==" (Some "2") other_kind_session)).
Proof.
  split; [reflexivity|]. split; [reflexivity|].
  intros H. specialize (H And 0 ["a"; "=="; "1"] eq_refl eq_refl).
  vm_compute in H. discriminate H.
Qed.

Ltac cast_facts :=
  repeat first
    [ apply Forall_nil_2
    | apply Forall_cons_2
    | match goal with
      | |- castable _ _ _ =>
          split; [by eexists|];
          let H := fresh in
          intros H; first [by vm_compute in H | vm_compute; by eexists]
      | |- canonical _ _ _ =>
          let c' := fresh in let H := fresh in
          intros c' H; vm_compute in H;
          first [discriminate H | injection H as <-; vm_compute; reflexivity]
      | |- settled _ _ _ =>
          split; [by eexists|];
          let H := fresh in
          intros H; first [by vm_compute in H | vm_compute; reflexivity]
      end ].

(** C1 (amended) on a session: the OR clauses on [a] are re-cast to float,
    the one on [b] and the AND list are not touched. *)
Lemma add_filter_retypes_own_list_witness :
  ∃ s', add_filter "a" "==" (Some "2") own_list_session = Ok tt s'
        ∧ session_list Or s' = [["a"; "=="; "3.0"]; ["b"; "=="; "x"]; ["a"; "=="; "2.0"]]
        ∧ session_list And s' = [["a"; "=="; "1"]].
Proof.
  destruct (add_filter_retypes_own_list own_list_session "a" "==" "2")
    as (s' & Hrun & Hown & Hother).
  - apply (bool_decide_unpack _). vm_compute. exact I.
  - vm_compute prepared_clause. simpl app. cast_facts.
  - vm_compute prepared_clause. simpl app. cast_facts.
  - exists s'. split; [exact Hrun|]. split.
    + etrans; [exact Hown|]. vm_compute. reflexivity.
    + rewrite (Hother And); [reflexivity|discriminate].
Defined.

(** C2 as stated fails: the pass re-casts [a == 1] to ["1.0"], then fails on
    [a == x]; the failure is reported and the new clause removed, but the
    AND list is not what it was before the add. *)
Lemma add_filter_rollback_keeps_recasts :
  uncastable (retyping_df partial_retype_session "a" "==" "2") "a"
    ["a"; "=="; "x"] "TypeCoercionError"
  ∧ StException "TypeCoercionError"
      ∈ ui (final (add_filter "a" "==" (Some "2") partial_retype_session))
  ∧ ¬ same_filters partial_retype_session
        (final (add_filter "a" "==" (Some "2") partial_retype_session)).
Proof.
  split; [split; [reflexivity|exists "x"; split; [reflexivity|vm_compute; reflexivity]]|].
  split; [apply (bool_decide_unpack _); vm_compute; exact I|].
  intros (Hand & _). vm_compute in Hand. discriminate Hand.
Qed.

(** C2 (amended) on a session: the clause that cannot be cast is met before
    any value has changed. *)
Lemma add_filter_rollback_witness :
  ∃ s', add_filter "a" "==" (Some "2") rollback_session = Ok tt s'
        ∧ same_filters rollback_session s'
        ∧ config_filters And s' = st_and rollback_session
        ∧ StException "TypeCoercionError" ∈ ui s'
        ∧ plot (post s') = None.
Proof.
  apply (add_filter_rollback rollback_session "a" "==" "2"
           [["b"; "=="; "x"]] ["a"; "=="; "x"] [["a"; "=="; "1"]; ["a"; "=="; "2.0"]]).
  - apply (bool_decide_unpack _). vm_compute. exact I.
  - vm_compute. reflexivity.
  - cast_facts.
  - split; [reflexivity|]. exists "x". split; [reflexivity|]. vm_compute. reflexivity.
Defined.

(** C5 as stated fails: the value ["2"] typed as int is cast to ["2"] and
    appended; column [a] cannot be turned into integers and stays float, the
    retyping pass casts the stored string through it, and the list ends up
    holding ["2.0"]. *)
Lemma add_filter_second_cast :
  ¬ (∀ s' c,
       add_filter "a" "==" (Some "2") second_cast_session = Ok tt s' →
       last (session_list And s') = Some c →
       cast_once second_cast_session "a" "==" "2" c).
Proof.
  intros H.
  assert (Hret : returned (add_filter "a" "==" (Some "2") second_cast_session))
    by (vm_compute; exact I).
  destruct (returned_Ok _ Hret) as [[] Hrun].
  assert (Hlast : last (session_list And
                          (final (add_filter "a" "==" (Some "2") second_cast_session)))
                  = Some ["a"; "=="; "2.0"])
    by (vm_compute; reflexivity).
  destruct (H _ _ Hrun Hlast) as (w & Hw & Hc).
  vm_compute in Hw. injection Hw as <-. vm_compute in Hc. discriminate Hc.
Qed.

(** C5 (amended) on a session: a series clause typed as float. *)
Lemma add_filter_stored_value_witness :
  ∃ s' sp w,
    prepare_filter Series "a" "==" "2" series_session = Ok ["a"; "2.0"] sp
    ∧ (prepared_value series_session "2" = "2.0" ∧ sp = series_session)
    ∧ ui sp `prefix_of` ui s'
    ∧ add_filter "a" "==" (Some "2") series_session = Ok tt s'
    ∧ val_as_col_dtype (retyping_df series_session "a" "==" "2") "2.0" "a" = inr w
    ∧ last (session_list Series s') = Some ["a"; native_str w].
Proof.
  apply (add_filter_stored_value series_session "a" "==" "2").
  - apply (bool_decide_unpack _). vm_compute. exact I.
  - vm_compute prepared_clause. simpl app. cast_facts.
  - vm_compute prepared_clause. simpl app. cast_facts.
Defined.

(** C8 as stated fails: a document with a title and no axis columns does
    not validate; the configuration the session is left with holds the title
    of the document and is not the empty template. *)
Lemma update_config_keeps_invalid_document :
  load_config (Some untitled_axes_doc) = inr untitled_axes_doc
  ∧ new_config untitled_axes_doc false = inl "ConfigValidationError"
  ∧ title (config (final (update_config upload_session))) = Some "Throughput"
  ∧ config (final (update_config upload_session)) ≠ from_template.
Proof.
  split; [reflexivity|]. split; [vm_compute; reflexivity|].
  split; [vm_compute; reflexivity|].
  intros H. apply (f_equal title) in H. vm_compute in H. discriminate H.
Qed.

(** C8 (amended) on that upload. *)
Lemma update_config_fallback_witness :
  ∃ s', update_config upload_session = Ok tt s'
        ∧ StException "ConfigValidationError" ∈ ui s'
        ∧ plot (post s') = None
        ∧ config s' = build untitled_axes_doc.
Proof.
  apply (update_config_fallback upload_session (Some untitled_axes_doc)
           untitled_axes_doc "ConfigValidationError").
  - reflexivity.
  - reflexivity.
  - vm_compute. reflexivity.
Defined.

(** C9 on a session: scaling by column [a], no x-axis value selected. *)
Lemma update_axes_x_value_string_witness :
  ∃ s', update_axes scaling_session = Ok tt s'
        ∧ scaling_column_spec (y_axis (config s')) !! "x_value" = Some (PStr "None")
        ∧ (y_axis_scaling_x_value (inputs scaling_session) = None →
           scaling_column_spec (y_axis (config s')) !! "x_value" = Some (PStr "None")).
Proof.
  apply (update_axes_x_value_string scaling_session).
  - reflexivity.
  - reflexivity.
  - exact I.
Defined.

(** C10 on a session: the plotted column [a] is added as an extra column. *)
Lemma add_extra_column_no_duplicate_witness :
  ∃ s', add_extra_column extra_session = Ok tt s'
        ∧ NoDup (extra_columns (config s'))
        ∧ extra_columns (config s') = [Some "a"]
        ∧ (Some "a" ∈ plot_columns (config extra_session) →
           Some "a" ∉ extra_columns (config extra_session) →
           Some "a" ∈ extra_columns (config s')
           ∧ StWarning "Currently selected extra column is already present in the DataFrame mask."
               ∈ ui s').
Proof.
  apply (add_extra_column_no_duplicate extra_session).
  apply NoDup_nil_2.
Defined.

(** ** The further properties on sessions *)

Import MoreExamples.

(** X3 on a session: the OR clause on [b] stays as it is when a clause on
    [a] is added. *)
Lemma add_filter_keeps_other_columns_witness :
  filter (λ c, head c ≠ Some "a")
    (session_list Or (final (add_filter "a" "==" (Some "2") own_list_session)))
  = [["b"; "=="; "x"]].
Proof.
  etrans; [apply (add_filter_keeps_other_columns own_list_session "a" "==" "2")|].
  - repeat constructor; simpl; lia.
  - vm_compute. reflexivity.
Defined.

(** X7 on a session: the second of two series is selected, and index 1 is
    stored. *)
Lemma update_axes_series_index_witness :
  ∃ s', update_axes series_scaling_session = Ok tt s'
        ∧ scaling_column_spec (y_axis (config s')) !! "series" = Some (PInt 1).
Proof.
  destruct (update_axes_series_index series_scaling_session)
    as (s' & Hrun & _ & i & Hi & Hlook & _).
  - reflexivity.
  - reflexivity.
  - vm_compute. apply list_elem_of_further, list_elem_of_here.
  - exists s'. split; [exact Hrun|].
    destruct i as [|[|i]]; [vm_compute in Hlook; discriminate Hlook|exact Hi|
                            vm_compute in Hlook; discriminate Hlook].
Defined.

(** X6 on a session: the selected series is none of the series filters, and
    the update raises. *)
Lemma update_axes_raises_iff_witness :
  ∃ s', update_axes stale_series_session = Raise "ValueError" s'
        ∧ y_axis (config s') !! "scaling" = Some (PDict {[ "custom" := PNone ]}).
Proof.
  destruct (update_axes_raises_iff stale_series_session) as [Hiff Hraise].
  apply Hraise. intros Hr. apply Hiff in Hr; [|reflexivity|reflexivity].
  vm_compute in Hr.
  repeat (apply elem_of_cons in Hr as [Hr|Hr]; [discriminate Hr|]).
  by apply elem_of_nil in Hr.
Defined.

(** X8 on a session: the x axis sorted descending stays so. *)
Lemma update_axes_keeps_other_entries_witness :
  x_axis (config (final (update_axes series_scaling_session))) !! "sort"
  = Some (PStr "descending").
Proof.
  etrans; [apply (update_axes_keeps_other_entries series_scaling_session);
           discriminate|].
  vm_compute. reflexivity.
Defined.

(** X9 on a session: the upload is not YAML. *)
Lemma update_config_unparsable_witness :
  ∃ s', update_config broken_upload_session = Ok tt s'
        ∧ ui s' = [StException "YAMLError"; StException "UnboundLocalError"]
        ∧ config s' = config broken_upload_session
        ∧ df (post s') = int_table
        ∧ plot (post s') = None.
Proof.
  apply (update_config_unparsable broken_upload_session None "YAMLError");
    reflexivity.
Defined.

(** X10 on a session: the uploaded document validates and is taken. *)
Lemma update_config_outcomes_witness :
  config (final (update_config valid_upload_session)) = build plotted_doc
  ∧ ui (final (update_config valid_upload_session)) = []
  ∧ plot (post (final (update_config valid_upload_session))) = Some tt.
Proof.
  destruct (update_config_outcomes valid_upload_session) as (_ & _ & Hvalid).
  destruct (Hvalid (Some plotted_doc) plotted_doc (build plotted_doc) int_table)
    as (Hc & _ & Hu & Hp).
  - reflexivity.
  - reflexivity.
  - vm_compute. reflexivity.
  - vm_compute. reflexivity.
  - split; [exact Hc|]. split; [exact Hu|exact Hp].
Defined.

(** X11 on a session: the axes name no column. *)
Lemma rerun_post_processing_outcomes_witness :
  ui (final (rerun_post_processing scaling_session))
  = [StException "ConfigValidationError"]
  ∧ df (post (final (rerun_post_processing scaling_session))) = int_table
  ∧ plot (post (final (rerun_post_processing scaling_session))) = None.
Proof.
  destruct (rerun_post_processing_outcomes scaling_session) as (_ & Hbad).
  destruct (Hbad "ConfigValidationError") as (Hu & Hd & _ & _ & Hp).
  - vm_compute. reflexivity.
  - split; [exact Hu|]. split; [exact Hd|exact Hp].
Defined.

(** X13 on a table: the integer column shows [int], the column of a native
    type without a name raises. *)
Lemma default_type_index_shows_column_type_witness :
  (∃ i, default_type_index numpy_table {[ "value" := PStr "a" ]} = inr i
        ∧ column_type_names !! i = Some "int")
  ∧ default_type_index numpy_table {[ "value" := PStr "n" ]} = inl "ValueError".
Proof.
  split.
  - destruct (proj2 (default_type_index_shows_column_type (B := backend) numpy_table
                       {[ "value" := PStr "a" ]}) "a" "Int64")
      as (i & Hi & Hty & _); [vm_compute; reflexivity|discriminate
                             |vm_compute; reflexivity|].
    exists i. split; [exact Hi|exact Hty].
  - apply (proj2 (default_type_index_shows_column_type (B := backend) numpy_table
                    {[ "value" := PStr "n" ]}) "n" "int64");
      [vm_compute; reflexivity|discriminate|vm_compute; reflexivity].
Defined.

(** X14 on a title. *)
Lemma config_file_name_no_space_witness :
  (∀ a, a ∈ list_ascii_of_string (config_file_name "Strong Scaling") → a ≠ " "%char)
  ∧ String.length (config_file_name "Strong Scaling") = 26
  ∧ config_file_name "strong_scaling" = config_file_name "Strong Scaling".
Proof.
  apply (config_file_name_no_space "Strong Scaling").
  unfold ascii_title. simpl. repeat constructor; simpl; lia.
Defined.

(** X16 on a session: the OR list is retyped on the integer column. *)
Lemma retype_filters_idempotent_witness :
  ∃ s1, retype_filters Or "a" own_list_session = Ok tt s1
        ∧ session_list Or s1
          = retyped int_table "a" <$> [["a"; "=="; "3"]; ["b"; "=="; "x"]]
        ∧ retype_filters Or "a" s1 = Ok tt s1.
Proof.
  apply (retype_filters_idempotent Or "a" own_list_session); cast_facts.
Defined.
